(** * Foodgram recipes API: a shallow embedding of [recipes/views.py]

    The views of [backend/foodgram_backend/recipes/views.py] are embedded as
    functions in a state-and-exception monad over a relational store.  The
    store keeps every table as the list of its rows in storage order together
    with the next primary key to hand out; an exception leaves the store as
    it was when the exception was raised (no transaction is opened by the
    views, so nothing is rolled back). *)

From stdpp Require Import base tactics option list gmap strings.

Local Open Scope Z_scope.

(** ** HTTP vocabulary ([rest_framework.status], [permissions.SAFE_METHODS]) *)

Module http.

Inductive Method := GET | HEAD | OPTIONS | POST | PUT | PATCH | DELETE.

#[global] Instance Method_eq_dec : EqDecision Method.
Proof. solve_decision. Defined.

Definition SAFE_METHODS : list Method := [GET; HEAD; OPTIONS].

Definition HTTP_200_OK : Z := 200.
Definition HTTP_201_CREATED : Z := 201.
Definition HTTP_204_NO_CONTENT : Z := 204.
Definition HTTP_400_BAD_REQUEST : Z := 400.
Definition HTTP_401_UNAUTHORIZED : Z := 401.
Definition HTTP_403_FORBIDDEN : Z := 403.
Definition HTTP_404_NOT_FOUND : Z := 404.
Definition HTTP_405_METHOD_NOT_ALLOWED : Z := 405.
Definition HTTP_500_INTERNAL_SERVER_ERROR : Z := 500.

End http.
Import http.

(** ** Values, requests and responses *)

(** A scalar of a request body or of a serialized object. *)
Inductive Value :=
  | VNull
  | VInt (z : Z)
  | VStr (s : string).

#[global] Instance Value_eq_dec : EqDecision Value.
Proof. solve_decision. Defined.

(** A Python dict with string keys: [request.data], [validated_data],
    keyword arguments, [serializer.data]. *)
Abbreviation Data := (gmap string Value).

(** [request.user]: the anonymous user or a stored user, by primary key. *)
Inductive RequestUser :=
  | AnonymousUser
  | User (id : Z).

#[global] Instance RequestUser_eq_dec : EqDecision RequestUser.
Proof. solve_decision. Defined.

Definition is_authenticated (u : RequestUser) : bool :=
  match u with AnonymousUser => false | User _ => true end.

Record Request := {
  method : Method;
  user : RequestUser;
  data : Data;
  query_params : gmap string string
}.

(** ** The relational store

    The models are declared in [recipes/models.py]; a row carries its
    primary key, the foreign keys and fields the views mention, and the rest
    of its fields as a dict where the views pass them through. *)

Record Recipe := {
  recipe_id : Z;
  recipe_author : Z;
  recipe_fields : Data
}.

(** A row of [Favorite] or of [ShoppingCart]: two foreign keys. *)
Record Relation := {
  rel_id : Z;
  rel_user : Z;
  rel_recipe : Z
}.

Record IngredientRecipe := {
  ir_id : Z;
  ir_recipe : Z;
  ir_ingredient : Z;
  ir_amount : Z
}.

Record Ingredient := {
  ingredient_id : Z;
  ingredient_name : string;
  ingredient_fields : Data
}.

Record Tag := {
  tag_id : Z;
  tag_fields : Data
}.

#[global] Instance Recipe_eq_dec : EqDecision Recipe.
Proof. solve_decision. Defined.
#[global] Instance Relation_eq_dec : EqDecision Relation.
Proof. solve_decision. Defined.
#[global] Instance IngredientRecipe_eq_dec : EqDecision IngredientRecipe.
Proof. solve_decision. Defined.

(** A table: its rows in storage order and the next automatic primary key. *)
Record Table (A : Type) := mkTable {
  rows : list A;
  next_id : Z
}.
Arguments mkTable {A} _ _.
Arguments rows {A} _.
Arguments next_id {A} _.

Record DB := mkDB {
  Recipe_objects : Table Recipe;
  Favorite_objects : Table Relation;
  ShoppingCart_objects : Table Relation;
  IngredientRecipe_objects : Table IngredientRecipe;
  Ingredient_objects : Table Ingredient;
  Tag_objects : Table Tag
}.

Definition empty_table {A} : Table A := mkTable [] 1.

Definition empty_db : DB :=
  mkDB empty_table empty_table empty_table empty_table empty_table empty_table.

(** The two relation models the toggles are instantiated at. *)
Inductive RelModel := Favorite | ShoppingCart.

#[global] Instance RelModel_eq_dec : EqDecision RelModel.
Proof. solve_decision. Defined.

Definition objects (model : RelModel) (db : DB) : Table Relation :=
  match model with
  | Favorite => Favorite_objects db
  | ShoppingCart => ShoppingCart_objects db
  end.

Definition set_objects (model : RelModel) (t : Table Relation) (db : DB) : DB :=
  match model with
  | Favorite =>
      mkDB (Recipe_objects db) t (ShoppingCart_objects db)
           (IngredientRecipe_objects db) (Ingredient_objects db) (Tag_objects db)
  | ShoppingCart =>
      mkDB (Recipe_objects db) (Favorite_objects db) t
           (IngredientRecipe_objects db) (Ingredient_objects db) (Tag_objects db)
  end.

Definition set_recipes (t : Table Recipe) (db : DB) : DB :=
  mkDB t (Favorite_objects db) (ShoppingCart_objects db)
       (IngredientRecipe_objects db) (Ingredient_objects db) (Tag_objects db).

(** ** Exceptions and responses *)

Inductive Exc :=
  | ValidationError (detail : string)
  | Http404
  | NotAuthenticated
  | PermissionDenied
  | MethodNotAllowed
  | DoesNotExist
  | MultipleObjectsReturned
  | IntegrityError
  | TypeError
  | ValueError
  | IndexError.

#[global] Instance Exc_eq_dec : EqDecision Exc.
Proof. solve_decision. Defined.

Inductive Body :=
  | NoBody
  | Object (o : Data)
  | Objects (l : list Data)
  | Detail (s : string)
  | Attachment (s : string).

Record Response := mkResponse {
  status : Z;
  body : Body
}.

(** ** The monad of a view: store in, result or exception and store out *)

Definition M (A : Type) : Type := DB → (Exc + A) * DB.

#[global] Instance M_ret : MRet M := λ A (a : A) db, (inr a, db).

#[global] Instance M_bind : MBind M := λ A B (f : A → M B) (m : M A) db,
  match m db with
  | (inr a, db') => f a db'
  | (inl e, db') => (inl e, db')
  end.

Definition raise {A} (e : Exc) : M A := λ db, (inl e, db).

Definition query {A} (f : DB → A) : M A := λ db, (inr (f db), db).

Definition modify (f : DB → DB) : M unit := λ db, (inr (), f db).

(** [try: ... except exc: handler] for one exception class. *)
Definition catch {A} (m : M A) (exc : Exc) (handler : M A) : M A := λ db,
  match m db with
  | (inl e, db') => if decide (e = exc) then handler db' else (inl e, db')
  | r => r
  end.

(** ** The ORM query layer, as far as the views use it *)

(** [Model.objects.filter(...)]: the matching rows, in storage order. *)
Definition qs_filter {A} (P : A → bool) (t : Table A) : list A :=
  List.filter P (rows t).

(** [queryset.exists()]. *)
Definition qs_exists {A} (qs : list A) : bool :=
  match qs with [] => false | _ :: _ => true end.

(** [queryset.get()]: the single row, [DoesNotExist] or
    [MultipleObjectsReturned]. *)
Definition qs_get {A} (qs : list A) : M A :=
  match qs with
  | [] => raise DoesNotExist
  | [x] => mret x
  | _ :: _ :: _ => raise MultipleObjectsReturned
  end.

(** [django.shortcuts.get_object_or_404]: [get], with [DoesNotExist] turned
    into [Http404]. *)
Definition get_object_or_404 {A} (qs : M (list A)) : M A :=
  catch (l ← qs; qs_get l) DoesNotExist (raise Http404).

(** The lookup [id=pk] or [pk=pk]; [pk] is the primary key named in the URL,
    taken as the number it denotes. *)
Definition by_id (pk : Z) (r : Recipe) : bool := bool_decide (recipe_id r = pk).

Definition by_recipe_user (recipe : Recipe) (uid : Z) (r : Relation) : bool :=
  bool_decide (rel_recipe r = recipe_id recipe) && bool_decide (rel_user r = uid).

(** [model.objects.filter(recipe=recipe, user=user)]; a lookup against the
    anonymous user is a [TypeError] in the ORM. *)
Definition rel_filter (model : RelModel) (recipe : Recipe) (u : RequestUser)
  : M (list Relation) :=
  match u with
  | AnonymousUser => raise TypeError
  | User uid => query (λ db, qs_filter (by_recipe_user recipe uid) (objects model db))
  end.

(** [Model.objects.create(user=..., recipe=...)]: one row appended under the
    next primary key. *)
Definition rel_create (model : RelModel) (uid : Z) (recipe : Recipe) : M Relation :=
  λ db,
    let t := objects model db in
    let row := {| rel_id := next_id t; rel_user := uid; rel_recipe := recipe_id recipe |} in
    (inr row, set_objects model (mkTable (rows t ++ [row]) (next_id t + 1)) db).

(** [obj.delete()]: the rows with the object's primary key go. *)
Definition rel_delete (model : RelModel) (obj : Relation) : M unit :=
  modify (λ db,
    let t := objects model db in
    set_objects model
      (mkTable (List.filter (λ r, negb (bool_decide (rel_id r = rel_id obj))) (rows t))
               (next_id t))
      db).

(** [Recipe.objects.filter(id=pk)], also the queryset behind
    [Recipe.objects.get(pk=pk)] and [get_object_or_404(Recipe, pk=pk)]. *)
Definition recipe_filter (pk : Z) : M (list Recipe) :=
  query (λ db, qs_filter (by_id pk) (Recipe_objects db)).

(** ** Relation serializers

    [FavoriteSerializer] and [ShoppingCartSerializer] are declared in
    [recipes/serializers.py]; the views use a serializer class through field
    validation of the request body and through the representation of a
    saved instance, and both are taken as the fields of a record. *)
Record RelSerializerClass := {
  run_validation : Data → string + Data;
  to_representation : DB → Relation → Data
}.

(** A serializer instance, [serializer_class(data=request.data)]. *)
Record RelSerializer := mkSerializer {
  ser_class : RelSerializerClass;
  initial_data : Data;
  validated_data : option Data;
  instance : option Relation
}.

Definition new_serializer (cls : RelSerializerClass) (d : Data) : RelSerializer :=
  mkSerializer cls d None None.

(** [serializer.is_valid(raise_exception=...)]. *)
Definition is_valid (s : RelSerializer) (raise_exception : bool)
  : M (bool * RelSerializer) :=
  match run_validation (ser_class s) (initial_data s) with
  | inr vd => mret (true, mkSerializer (ser_class s) (initial_data s) (Some vd) (instance s))
  | inl errors =>
      if raise_exception then raise (ValidationError errors) else mret (false, s)
  end.

(** [serializer.save(user=user, recipe=recipe)]: the keyword arguments take
    the place of any validated field of the same name, and a row of the
    serializer's model is created from them. *)
Definition save (s : RelSerializer) (model : RelModel) (u : RequestUser)
    (recipe : Recipe) : M RelSerializer :=
  match u with
  | AnonymousUser => raise ValueError
  | User uid =>
      row ← rel_create model uid recipe;
      mret (mkSerializer (ser_class s) (initial_data s) (validated_data s) (Some row))
  end.

(** [serializer.data]. *)
Definition serializer_data (s : RelSerializer) : M Data :=
  match instance s with
  | Some row => query (λ db, to_representation (ser_class s) db row)
  | None => mret (initial_data s)
  end.

(** ** [RecipeViewSet.add_recipe] and [RecipeViewSet.delete_recipe] *)

Definition add_recipe (request : Request) (pk : Z) (model : RelModel)
    (serializer_class : RelSerializerClass) (message : string) : M Response :=
  found ← recipe_filter pk;
  if negb (qs_exists found) then
    raise (ValidationError "Рецепта с таким id не существует")
  else
    recipe ← (l ← recipe_filter pk; qs_get l);
    let user := user request in
    present ← rel_filter model recipe user;
    if qs_exists present then
      raise (ValidationError ("Рецепт уже добавлен в " +:+ message))
    else
      let serializer := new_serializer serializer_class (data request) in
      '(ok, serializer) ← is_valid serializer true;
      serializer ← (if ok : bool then save serializer model user recipe
                    else mret serializer);
      d ← serializer_data serializer;
      mret (mkResponse HTTP_201_CREATED (Object d)).

Definition delete_recipe (request : Request) (pk : Z) (model : RelModel)
    (message : string) : M Response :=
  recipe ← get_object_or_404 (recipe_filter pk);
  let user := user request in
  present ← rel_filter model recipe user;
  if negb (qs_exists present) then
    raise (ValidationError ("Рецепт не добавлен в " +:+ message))
  else
    obj ← get_object_or_404 (rel_filter model recipe user);
    rel_delete model obj;;
    mret (mkResponse HTTP_204_NO_CONTENT NoBody).

(** ** Permissions ([rest_framework.permissions], [recipes.permissions]) *)

Record Permission (A : Type) := mkPermission {
  has_permission : Request → bool;
  has_object_permission : Request → A → bool
}.
Arguments mkPermission {A} _ _.
Arguments has_permission {A} _ _.
Arguments has_object_permission {A} _ _ _.

Definition is_safe (m : Method) : bool := bool_decide (m ∈ SAFE_METHODS).

Definition IsAuthenticated {A} : Permission A :=
  mkPermission (λ request, is_authenticated (user request)) (λ _ _, true).

Definition IsAuthenticatedOrReadOnly {A} : Permission A :=
  mkPermission
    (λ request, is_safe (method request) || is_authenticated (user request))
    (λ _ _, true).

(** Modelled from the spec: [recipes.permissions.IsAuthorOrReadOnly] is
    imported by the views and declared in [recipes/permissions.py], which is
    not among the sources.  The spec calls it the author-based write
    permission (author-only edit): every request passes the view-level
    check, and a request on a recipe passes when it is a read or comes from
    the recipe's author. *)
Definition IsAuthorOrReadOnly : Permission Recipe :=
  mkPermission
    (λ _, true)
    (λ request obj,
       is_safe (method request)
       || bool_decide (user request = User (recipe_author obj))).

(** [APIView.permission_denied]. *)
Definition permission_denied {A} (request : Request) : M A :=
  if is_authenticated (user request) then raise PermissionDenied
  else raise NotAuthenticated.

(** [APIView.check_permissions]: every class must grant the request. *)
Fixpoint check_permissions {A} (classes : list (Permission A)) (request : Request)
  : M unit :=
  match classes with
  | [] => mret ()
  | p :: classes' =>
      if has_permission p request then check_permissions classes' request
      else permission_denied request
  end.

(** [APIView.check_object_permissions]. *)
Fixpoint check_object_permissions {A} (classes : list (Permission A))
    (request : Request) (obj : A) : M unit :=
  match classes with
  | [] => mret ()
  | p :: classes' =>
      if has_object_permission p request obj
      then check_object_permissions classes' request obj
      else permission_denied request
  end.

(** ** From an exception to a response ([rest_framework.views]) *)

Definition exception_handler (e : Exc) : Response :=
  match e with
  | ValidationError detail => mkResponse HTTP_400_BAD_REQUEST (Detail detail)
  | Http404 => mkResponse HTTP_404_NOT_FOUND NoBody
  | NotAuthenticated => mkResponse HTTP_401_UNAUTHORIZED NoBody
  | PermissionDenied => mkResponse HTTP_403_FORBIDDEN NoBody
  | MethodNotAllowed => mkResponse HTTP_405_METHOD_NOT_ALLOWED NoBody
  | _ => mkResponse HTTP_500_INTERNAL_SERVER_ERROR NoBody
  end.

(** One request through a view: the response sent and the store left. *)
Definition respond (view : M Response) (db : DB) : Response * DB :=
  match view db with
  | (inr response, db') => (response, db')
  | (inl e, db') => (exception_handler e, db')
  end.

(** [for i in range(n): ...] over a loop state. *)
Definition for_range {S} (n : nat) (body : nat → S → M S) (init : S) : M S :=
  foldl (λ (acc : M S) i, s ← acc; body i s) (mret init) (seq 0 n).

(** An [@action] of a viewset: the permission classes of the decorator are
    checked first, then the method is looked up among the declared ones. *)
Definition action {A} (methods : list Method) (permission_classes : list (Permission A))
    (handler : Request → M Response) (request : Request) : M Response :=
  check_permissions permission_classes request;;
  if bool_decide (method request ∈ methods) then handler request
  else raise MethodNotAllowed.

(** ** The extra actions of [RecipeViewSet] *)

Section recipe_actions.

(** The two relation serializer classes and the download helper
    ([recipes.utils.download]) are imported by the views. *)
Context (FavoriteSerializer ShoppingCartSerializer : RelSerializerClass).
Context (download : list (list IngredientRecipe) → Response).

Definition favorite (request : Request) (pk : Z) : M Response :=
  let message := "избранное" in
  if bool_decide (method request = POST) then
    add_recipe request pk Favorite FavoriteSerializer message
  else
    delete_recipe request pk Favorite message.

Definition shopping_cart (request : Request) (pk : Z) : M Response :=
  let message := "список покупок" in
  if bool_decide (method request = POST) then
    add_recipe request pk ShoppingCart ShoppingCartSerializer message
  else
    delete_recipe request pk ShoppingCart message.

(** [ShoppingCart.objects.filter(user=request.user)]. *)
Definition cart_filter (u : RequestUser) : M (list Relation) :=
  match u with
  | AnonymousUser => raise TypeError
  | User uid =>
      query (λ db, qs_filter (λ r, bool_decide (rel_user r = uid))
                             (ShoppingCart_objects db))
  end.

(** [IngredientRecipe.objects.filter(recipe=recipe)], the recipe given by
    its primary key. *)
Definition ingredient_filter (recipe : Z) : M (list IngredientRecipe) :=
  query (λ db, qs_filter (λ ir, bool_decide (ir_recipe ir = recipe))
                         (IngredientRecipe_objects db)).

Definition download_shopping_cart (request : Request) : M Response :=
  carts ← cart_filter (user request);
  let recipes := rel_recipe <$> carts in
  ingredients ←
    for_range (length recipes)
      (λ id ingredients,
         match recipes !! id with
         | None => raise IndexError
         | Some recipe =>
             qs ← ingredient_filter recipe;
             mret (ingredients ++ [qs])
         end)
      [];
  mret (download ingredients).

Definition favorite_action (request : Request) (pk : Z) : M Response :=
  action [POST; DELETE] [IsAuthenticated (A := Recipe)]
         (λ request, favorite request pk) request.

Definition shopping_cart_action (request : Request) (pk : Z) : M Response :=
  action [POST; DELETE] [IsAuthenticated (A := Recipe)]
         (λ request, shopping_cart request pk) request.

Definition download_shopping_cart_action (request : Request) : M Response :=
  action [GET] [IsAuthenticated (A := Recipe)] download_shopping_cart request.

End recipe_actions.

(** ** Generic viewsets ([rest_framework.mixins], [rest_framework.viewsets]) *)

Inductive Mixin :=
  | CreateModelMixin
  | RetrieveModelMixin
  | UpdateModelMixin
  | DestroyModelMixin
  | ListModelMixin.

(** The actions the mixins bring; [list] is spelled [list_] here. *)
Inductive Action := list_ | retrieve | create | update | partial_update | destroy.

#[global] Instance Action_eq_dec : EqDecision Action.
Proof. solve_decision. Defined.

Definition mixin_actions (m : Mixin) : list Action :=
  match m with
  | CreateModelMixin => [create]
  | RetrieveModelMixin => [retrieve]
  | UpdateModelMixin => [update; partial_update]
  | DestroyModelMixin => [destroy]
  | ListModelMixin => [list_]
  end.

(** [viewsets.ModelViewSet]. *)
Definition ModelViewSet : list Mixin :=
  [CreateModelMixin; RetrieveModelMixin; UpdateModelMixin; DestroyModelMixin;
   ListModelMixin].

(** The two routes a router registers for a viewset. *)
Inductive Route :=
  | list_route
  | detail_route (pk : Z).

(** The router's method map; [HEAD] goes where [GET] goes. *)
Definition route_action (route : Route) (m : Method) : option Action :=
  match route, m with
  | list_route, (GET | HEAD) => Some list_
  | list_route, POST => Some create
  | detail_route _, (GET | HEAD) => Some retrieve
  | detail_route _, PUT => Some update
  | detail_route _, PATCH => Some partial_update
  | detail_route _, DELETE => Some destroy
  | _, _ => None
  end.

(** What a generic view needs of a model: its table and primary key. *)
Class Model (A : Type) := {
  table : DB → Table A;
  pk_of : A → Z
}.

#[global] Instance Recipe_model : Model Recipe :=
  {| table := Recipe_objects; pk_of := recipe_id |}.
#[global] Instance Ingredient_model : Model Ingredient :=
  {| table := Ingredient_objects; pk_of := ingredient_id |}.
#[global] Instance Tag_model : Model Tag :=
  {| table := Tag_objects; pk_of := tag_id |}.

(** A model serializer class, as far as the generic views use one. *)
Record ModelSerializerClass (A : Type) := mkModelSerializerClass {
  ms_run_validation : bool → Data → string + Data;
  ms_create : Data → M A;
  ms_update : A → Data → M A;
  ms_to_representation : DB → A → Data
}.
Arguments mkModelSerializerClass {A} _ _ _ _.
Arguments ms_run_validation {A} _ _ _.
Arguments ms_create {A} _ _.
Arguments ms_update {A} _ _ _.
Arguments ms_to_representation {A} _ _ _.

(** A serializer instance: [get_serializer(instance, data=..., partial=...)]. *)
Record Serializer (A : Type) := mkModelSerializer {
  s_class : ModelSerializerClass A;
  s_instance : option A;
  s_initial_data : Data;
  s_partial : bool;
  s_validated_data : Data
}.
Arguments mkModelSerializer {A} _ _ _ _ _.
Arguments s_class {A} _.
Arguments s_instance {A} _.
Arguments s_initial_data {A} _.
Arguments s_partial {A} _.
Arguments s_validated_data {A} _.

(** [serializer.is_valid(raise_exception=True)]. *)
Definition ms_is_valid {A} (s : Serializer A) : M (Serializer A) :=
  match ms_run_validation (s_class s) (s_partial s) (s_initial_data s) with
  | inr vd =>
      mret (mkModelSerializer (s_class s) (s_instance s) (s_initial_data s)
                              (s_partial s) vd)
  | inl errors => raise (ValidationError errors)
  end.

(** [BaseSerializer.save] with keyword arguments: the validated data updated
    with them, then [update] of the bound instance or [create]. *)
Definition ms_save {A} (s : Serializer A) (kwargs : Data) : M (Serializer A) :=
  let validated_data := kwargs ∪ s_validated_data s in
  obj ← match s_instance s with
        | Some obj => ms_update (s_class s) obj validated_data
        | None => ms_create (s_class s) validated_data
        end;
  mret (mkModelSerializer (s_class s) (Some obj) (s_initial_data s)
                          (s_partial s) (s_validated_data s)).

(** [serializer.data] of a saved or bound serializer. *)
Definition ms_data {A} (s : Serializer A) : M Data :=
  match s_instance s with
  | Some obj => query (λ db, ms_to_representation (s_class s) db obj)
  | None => mret (s_initial_data s)
  end.

(** A pagination class. *)
Record Paginator := mkPaginator {
  paginate_queryset : ∀ A : Type, Request → list A → option (list A);
  get_paginated_response : Request → list Data → Response
}.

(** A viewset class: its bases, its class attributes and its hooks. *)
Record ViewSet (A : Type) := mkViewSet {
  bases : list Mixin;
  get_queryset : DB → list A;
  filter_queryset : Request → DB → list A → list A;
  pagination_class : option Paginator;
  permission_classes : list (Permission A);
  get_serializer_class : Request → ModelSerializerClass A;
  perform_create : Request → Serializer A → M (Serializer A);
  perform_update : Request → Serializer A → M (Serializer A);
  perform_destroy : Request → A → M unit
}.
Arguments mkViewSet {A} _ _ _ _ _ _ _ _ _.
Arguments bases {A} _.
Arguments get_queryset {A} _ _.
Arguments filter_queryset {A} _ _ _ _.
Arguments pagination_class {A} _.
Arguments permission_classes {A} _.
Arguments get_serializer_class {A} _ _.
Arguments perform_create {A} _ _ _.
Arguments perform_update {A} _ _ _.
Arguments perform_destroy {A} _ _ _.

Definition actions {A} (view : ViewSet A) : list Action :=
  bases view ≫= mixin_actions.

Section generic_views.

Context {A : Type} `{Model A}.
Context (view : ViewSet A).

(** [GenericAPIView.get_object]. *)
Definition get_object (request : Request) (pk : Z) : M A :=
  obj ← get_object_or_404
           (query (λ db,
              List.filter (λ r, bool_decide (pk_of r = pk))
                (filter_queryset view request db (get_queryset view db))));
  check_object_permissions (permission_classes view) request obj;;
  mret obj.

(** [ListModelMixin.list]. *)
Definition list_view (request : Request) : M Response :=
  queryset ← query (λ db, filter_queryset view request db (get_queryset view db));
  let serializer_class := get_serializer_class view request in
  let page :=
    match pagination_class view with
    | None => None
    | Some paginator =>
        match paginate_queryset paginator A request queryset with
        | None => None
        | Some page => Some (paginator, page)
        end
    end in
  match page with
  | Some (paginator, page) =>
      d ← query (λ db, ms_to_representation serializer_class db <$> page);
      mret (get_paginated_response paginator request d)
  | None =>
      d ← query (λ db, ms_to_representation serializer_class db <$> queryset);
      mret (mkResponse HTTP_200_OK (Objects d))
  end.

(** [RetrieveModelMixin.retrieve]. *)
Definition retrieve_view (request : Request) (pk : Z) : M Response :=
  obj ← get_object request pk;
  d ← query (λ db, ms_to_representation (get_serializer_class view request) db obj);
  mret (mkResponse HTTP_200_OK (Object d)).

(** [CreateModelMixin.create]. *)
Definition create_view (request : Request) : M Response :=
  let serializer :=
    mkModelSerializer (get_serializer_class view request) None (data request)
                      false ∅ in
  serializer ← ms_is_valid serializer;
  serializer ← perform_create view request serializer;
  d ← ms_data serializer;
  mret (mkResponse HTTP_201_CREATED (Object d)).

(** [UpdateModelMixin.update] and [partial_update]. *)
Definition update_view (partial : bool) (request : Request) (pk : Z) : M Response :=
  obj ← get_object request pk;
  let serializer :=
    mkModelSerializer (get_serializer_class view request) (Some obj)
                      (data request) partial ∅ in
  serializer ← ms_is_valid serializer;
  serializer ← perform_update view request serializer;
  d ← ms_data serializer;
  mret (mkResponse HTTP_200_OK (Object d)).

(** [DestroyModelMixin.destroy]. *)
Definition destroy_view (request : Request) (pk : Z) : M Response :=
  obj ← get_object request pk;
  perform_destroy view request obj;;
  mret (mkResponse HTTP_204_NO_CONTENT NoBody).

Definition handler (a : Action) (route : Route) (request : Request) : M Response :=
  match a, route with
  | list_, _ => list_view request
  | create, _ => create_view request
  | retrieve, detail_route pk => retrieve_view request pk
  | update, detail_route pk => update_view false request pk
  | partial_update, detail_route pk => update_view true request pk
  | destroy, detail_route pk => destroy_view request pk
  | _, list_route => raise MethodNotAllowed
  end.

(** [APIView.dispatch] behind the router: permissions first, then the
    handler bound to the method, [OPTIONS] answered by the framework, and
    [MethodNotAllowed] for a method no base of the viewset provides. *)
Definition dispatch (route : Route) (request : Request) : M Response :=
  check_permissions (permission_classes view) request;;
  match route_action route (method request) with
  | Some a =>
      if bool_decide (a ∈ actions view) then handler a route request
      else raise MethodNotAllowed
  | None =>
      if bool_decide (method request = OPTIONS)
      then mret (mkResponse HTTP_200_OK NoBody)
      else raise MethodNotAllowed
  end.

End generic_views.

(** The hooks as the mixins define them. *)
Definition CreateModelMixin_perform_create {A} (request : Request)
    (serializer : Serializer A) : M (Serializer A) :=
  ms_save serializer ∅.

Definition UpdateModelMixin_perform_update {A} (request : Request)
    (serializer : Serializer A) : M (Serializer A) :=
  ms_save serializer ∅.

Definition DestroyModelMixin_perform_destroy {A} (delete : A → M unit)
    (request : Request) (obj : A) : M unit :=
  delete obj.

(** A hook of a mixin that is not among the bases of a viewset. *)
Definition not_provided {A B} (request : Request) (x : A) : M B :=
  raise MethodNotAllowed.

(** [request.user] as a field value: the user's primary key. *)
Definition user_value (u : RequestUser) : Value :=
  match u with
  | AnonymousUser => VNull
  | User uid => VInt uid
  end.

(** Modelled from the spec: [PostRecipeSerializer.create] is declared in
    [recipes/serializers.py], which is not among the sources.  The spec has
    recipe creation as a passthrough to the ORM with the author assigned by
    the view: the validated data, author included, become one new row of
    [Recipe] under the next primary key. *)
Definition Recipe_objects_create (validated_data : Data) : M Recipe := λ db,
  match validated_data !! "author" with
  | Some (VInt author) =>
      let t := Recipe_objects db in
      let recipe := {| recipe_id := next_id t;
                       recipe_author := author;
                       recipe_fields := delete "author" validated_data |} in
      (inr recipe, set_recipes (mkTable (rows t ++ [recipe]) (next_id t + 1)) db)
  | _ => (inl IntegrityError, db)
  end.

(** The [REST_FRAMEWORK] settings of the project that a viewset falls back
    on for an attribute it does not set. *)
Record Settings := mkSettings {
  DEFAULT_PERMISSION_CLASSES : ∀ A : Type, list (Permission A);
  DEFAULT_FILTER_BACKENDS : ∀ A : Type, Request → DB → list A → list A
}.

(** ** The three viewsets of [recipes/views.py] *)

Section viewsets.

(** What the views import from modules that are not among the sources:
    serializers, filters, the pagination class, the project's settings and
    the deletion of a recipe by the ORM. *)
Context (IngredientSerializer : ModelSerializerClass Ingredient).
Context (TagSerializer : ModelSerializerClass Tag).
Context (GetRecipeSerializer : ModelSerializerClass Recipe).
Context (PostRecipe_run_validation : bool → Data → string + Data).
Context (PostRecipe_update : Recipe → Data → M Recipe).
Context (PostRecipe_to_representation : DB → Recipe → Data).
Context (IngredientsSearch :
           list string → Request → DB → list Ingredient → list Ingredient).
Context (RecipeFilter : Request → DB → list Recipe → list Recipe).
Context (Pagination : Paginator).
Context (REST_FRAMEWORK : Settings).
Context (Recipe_delete : Recipe → M unit).

Definition PostRecipeSerializer : ModelSerializerClass Recipe :=
  mkModelSerializerClass PostRecipe_run_validation Recipe_objects_create
                         PostRecipe_update PostRecipe_to_representation.

Definition IngredientViewSet : ViewSet Ingredient := {|
  bases := [ListModelMixin; RetrieveModelMixin];
  get_queryset := λ db, rows (Ingredient_objects db);
  filter_queryset := IngredientsSearch ["^name"];
  pagination_class := None;
  permission_classes := DEFAULT_PERMISSION_CLASSES REST_FRAMEWORK Ingredient;
  get_serializer_class := λ _, IngredientSerializer;
  perform_create := not_provided;
  perform_update := not_provided;
  perform_destroy := not_provided
|}.

Definition RecipeViewSet : ViewSet Recipe := {|
  bases := ModelViewSet;
  get_queryset := λ db, rows (Recipe_objects db);
  filter_queryset := RecipeFilter;
  pagination_class := Some Pagination;
  permission_classes := [IsAuthorOrReadOnly; IsAuthenticatedOrReadOnly];
  get_serializer_class := λ request,
    if negb (is_safe (method request)) then PostRecipeSerializer
    else GetRecipeSerializer;
  perform_create := λ request serializer,
    ms_save serializer {[ "author" := user_value (user request) ]};
  perform_update := UpdateModelMixin_perform_update;
  perform_destroy := DestroyModelMixin_perform_destroy Recipe_delete
|}.

Definition TagViewSet : ViewSet Tag := {|
  bases := [ListModelMixin; RetrieveModelMixin];
  get_queryset := λ db, rows (Tag_objects db);
  filter_queryset := DEFAULT_FILTER_BACKENDS REST_FRAMEWORK Tag;
  pagination_class := None;
  permission_classes := DEFAULT_PERMISSION_CLASSES REST_FRAMEWORK Tag;
  get_serializer_class := λ _, TagSerializer;
  perform_create := not_provided;
  perform_update := not_provided;
  perform_destroy := not_provided
|}.

End viewsets.

(** ** The toggle of the spec

    The spec words the two toggles as one operation instantiated at a
    relation model; [toggle] is that operation, to be compared with
    [favorite] and [shopping_cart] as the source writes them. *)
Definition toggle (model : RelModel) (serializer_class : RelSerializerClass)
    (message : string) (request : Request) (pk : Z) : M Response :=
  if bool_decide (method request = POST) then
    add_recipe request pk model serializer_class message
  else
    delete_recipe request pk model message.

(** The store with the two relation tables exchanged. *)
Definition swap_tables (db : DB) : DB :=
  mkDB (Recipe_objects db) (ShoppingCart_objects db) (Favorite_objects db)
       (IngredientRecipe_objects db) (Ingredient_objects db) (Tag_objects db).

Definition swap_model (model : RelModel) : RelModel :=
  match model with Favorite => ShoppingCart | ShoppingCart => Favorite end.

(** A serializer class read through the exchange of the tables. *)
Definition swap_class (cls : RelSerializerClass) : RelSerializerClass :=
  {| run_validation := run_validation cls;
     to_representation := λ db row, to_representation cls (swap_tables db) row |}.

(** An exception without its message text. *)
Definition erase_detail (e : Exc) : Exc :=
  match e with
  | ValidationError _ => ValidationError ""
  | e => e
  end.

(** ** Integrity of the store *)

(** Primary keys of a table: distinct, and below the next key. *)
Definition pk_ok {A} (pk : A → Z) (t : Table A) : Prop :=
  NoDup (pk <$> rows t) ∧ Forall (λ r, pk r < next_id t) (rows t).

(** The rows of a relation table for one user and one recipe. *)
Definition rows_of (uid recipe : Z) (t : Table Relation) : list Relation :=
  List.filter (λ r, bool_decide (rel_recipe r = recipe) && bool_decide (rel_user r = uid))
              (rows t).

(** At most one row per user and recipe. *)
Definition at_most_one (t : Table Relation) : Prop :=
  ∀ uid recipe, (length (rows_of uid recipe t) ≤ 1)%nat.

Definition unique_relations (db : DB) : Prop :=
  at_most_one (Favorite_objects db) ∧ at_most_one (ShoppingCart_objects db).

Definition wf_db (db : DB) : Prop :=
  pk_ok recipe_id (Recipe_objects db)
  ∧ pk_ok rel_id (Favorite_objects db)
  ∧ pk_ok rel_id (ShoppingCart_objects db)
  ∧ unique_relations db.

(** ** Rows and stores the properties speak of *)

(** The row an add appends, the store after it, and the store after a
    delete. *)
Definition new_row (model : RelModel) (uid : Z) (recipe : Recipe) (db : DB) : Relation :=
  {| rel_id := next_id (objects model db);
     rel_user := uid;
     rel_recipe := recipe_id recipe |}.

Definition insert_row (model : RelModel) (row : Relation) (db : DB) : DB :=
  set_objects model
    (mkTable (rows (objects model db) ++ [row]) (next_id (objects model db) + 1)) db.

Definition delete_row (model : RelModel) (obj : Relation) (db : DB) : DB :=
  set_objects model
    (mkTable (List.filter (λ r, negb (bool_decide (rel_id r = rel_id obj)))
                          (rows (objects model db)))
             (next_id (objects model db))) db.

(** Everything but the table of [model] is the same in the two stores. *)
Definition same_except (model : RelModel) (db db' : DB) : Prop :=
  Recipe_objects db' = Recipe_objects db
  ∧ objects (swap_model model) db' = objects (swap_model model) db
  ∧ IngredientRecipe_objects db' = IngredientRecipe_objects db
  ∧ Ingredient_objects db' = Ingredient_objects db
  ∧ Tag_objects db' = Tag_objects db.

(** The ingredient rows of the recipe of one cart row. *)
Definition ingredients_of (db : DB) (cart : Relation) : list IngredientRecipe :=
  qs_filter (λ ir, bool_decide (ir_recipe ir = rel_recipe cart))
            (IngredientRecipe_objects db).

(** The cart rows of a user, in storage order. *)
Definition carts_of (db : DB) (uid : Z) : list Relation :=
  qs_filter (λ r, bool_decide (rel_user r = uid)) (ShoppingCart_objects db).

(** ** Computations and the store *)

(** A computation that leaves the store as it found it, whatever it
    returns or raises. *)
Definition read_only {A} (m : M A) : Prop := ∀ db, snd (m db) = db.

(** A computation that keeps a property of the store, and whose results
    satisfy [R]. *)
Definition keeps (P : DB → Prop) {A} (m : M A) (R : A → Prop) : Prop :=
  ∀ db, P db → P (snd (m db)) ∧ ∀ a, fst (m db) = inr a → R a.

(** ** Requests in sequence *)

Section requests.

Context (FavoriteSerializer ShoppingCartSerializer : RelSerializerClass).
Context (download : list (list IngredientRecipe) → Response).
Context (IngredientSerializer : ModelSerializerClass Ingredient).
Context (TagSerializer : ModelSerializerClass Tag).
Context (GetRecipeSerializer : ModelSerializerClass Recipe).
Context (PostRecipe_run_validation : bool → Data → string + Data).
Context (PostRecipe_update : Recipe → Data → M Recipe).
Context (PostRecipe_to_representation : DB → Recipe → Data).
Context (IngredientsSearch :
           list string → Request → DB → list Ingredient → list Ingredient).
Context (RecipeFilter : Request → DB → list Recipe → list Recipe).
Context (Pagination : Paginator).
Context (REST_FRAMEWORK : Settings).
Context (Recipe_delete : Recipe → M unit).

Let recipes : ViewSet Recipe :=
  RecipeViewSet GetRecipeSerializer PostRecipe_run_validation PostRecipe_update
                PostRecipe_to_representation RecipeFilter Pagination Recipe_delete.
Let ingredients : ViewSet Ingredient :=
  IngredientViewSet IngredientSerializer IngredientsSearch REST_FRAMEWORK.
Let tags : ViewSet Tag := TagViewSet TagSerializer REST_FRAMEWORK.

(** A request to one of the endpoints of [recipes/views.py]. *)
Inductive Operation :=
  | favorite_request (request : Request) (pk : Z)
  | shopping_cart_request (request : Request) (pk : Z)
  | download_request (request : Request)
  | recipes_request (route : Route) (request : Request)
  | ingredients_request (route : Route) (request : Request)
  | tags_request (route : Route) (request : Request).

Definition view_of (op : Operation) : M Response :=
  match op with
  | favorite_request request pk => favorite_action FavoriteSerializer request pk
  | shopping_cart_request request pk =>
      shopping_cart_action ShoppingCartSerializer request pk
  | download_request request => download_shopping_cart_action download request
  | recipes_request route request => dispatch recipes route request
  | ingredients_request route request => dispatch ingredients route request
  | tags_request route request => dispatch tags route request
  end.

(** The store after one request, and after a sequence of requests. *)
Definition run (op : Operation) (db : DB) : DB := snd (respond (view_of op) db).

Definition run_all (ops : list Operation) (db : DB) : DB :=
  foldl (λ db op, run op db) db ops.

End requests.

(** ** Sample data for closed instances *)

(** A relation serializer class with read-only fields only. *)
Definition sample_serializer : RelSerializerClass :=
  {| run_validation := λ _, inr ∅;
     to_representation := λ _ row, {[ "id" := VInt (rel_recipe row) ]} |}.

Definition sample_recipe : Recipe :=
  {| recipe_id := 1; recipe_author := 7; recipe_fields := ∅ |}.

Definition sample_request (m : Method) (u : RequestUser) : Request :=
  {| method := m; user := u; data := ∅; query_params := ∅ |}.

(** One recipe, no relation rows. *)
Definition sample_db : DB := set_recipes (mkTable [sample_recipe] 2) empty_db.

(** The same store after user 3 has put recipe 1 among the favorites. *)
Definition sample_db_fav : DB :=
  insert_row Favorite (new_row Favorite 3 sample_recipe sample_db) sample_db.

(** A store with two cart rows of user 3, one of user 4, and ingredient rows. *)
Definition sample_db_cart : DB :=
  mkDB (mkTable [sample_recipe;
                 {| recipe_id := 2; recipe_author := 7; recipe_fields := ∅ |}] 3)
       empty_table
       (mkTable [ {| rel_id := 1; rel_user := 3; rel_recipe := 2 |};
                  {| rel_id := 2; rel_user := 4; rel_recipe := 1 |};
                  {| rel_id := 3; rel_user := 3; rel_recipe := 1 |} ] 4)
       (mkTable [ {| ir_id := 1; ir_recipe := 1; ir_ingredient := 10; ir_amount := 2 |};
                  {| ir_id := 2; ir_recipe := 2; ir_ingredient := 10; ir_amount := 5 |};
                  {| ir_id := 3; ir_recipe := 1; ir_ingredient := 11; ir_amount := 1 |} ] 4)
       empty_table empty_table.

(** A download helper that reports the sizes of the collections it gets. *)
Definition sample_download (ingredients : list (list IngredientRecipe)) : Response :=
  mkResponse HTTP_200_OK
    (Objects ((λ qs, {[ "rows" := VInt (Z.of_nat (length qs)) ]}) <$> ingredients)).

Definition sample_recipe_serializer_validation (partial : bool) (d : Data)
  : string + Data := inr d.

Definition sample_recipe_representation (db : DB) (r : Recipe) : Data :=
  {[ "id" := VInt (recipe_id r); "author" := VInt (recipe_author r) ]}.

Definition sample_get_serializer : ModelSerializerClass Recipe :=
  mkModelSerializerClass sample_recipe_serializer_validation
    (λ _, raise MethodNotAllowed) (λ r _, mret r) sample_recipe_representation.

Definition sample_paginator : Paginator :=
  mkPaginator (λ A _ l, Some (take 6 l)) (λ _ d, mkResponse HTTP_200_OK (Objects d)).

Definition sample_recipe_delete (r : Recipe) : M unit :=
  modify (λ db,
    set_recipes
      (mkTable (List.filter (λ x, negb (bool_decide (recipe_id x = recipe_id r)))
                            (rows (Recipe_objects db)))
               (next_id (Recipe_objects db))) db).

Definition sample_view : ViewSet Recipe :=
  RecipeViewSet sample_get_serializer sample_recipe_serializer_validation
    (λ r _, mret r) sample_recipe_representation (λ _ _ qs, qs)
    sample_paginator sample_recipe_delete.

(** Settings that allow any requester and filter nothing. *)
Definition sample_settings : Settings :=
  mkSettings (λ _, []) (λ _ _ _ qs, qs).

Definition sample_ingredient_serializer : ModelSerializerClass Ingredient :=
  mkModelSerializerClass (λ _ d, inr d) (λ _, raise MethodNotAllowed) (λ r _, mret r)
    (λ _ r, {[ "id" := VInt (ingredient_id r); "name" := VStr (ingredient_name r) ]}).

Definition sample_tag_serializer : ModelSerializerClass Tag :=
  mkModelSerializerClass (λ _ d, inr d) (λ _, raise MethodNotAllowed) (λ r _, mret r)
    (λ _ r, <[ "id" := VInt (tag_id r) ]> (tag_fields r)).

(** The sample deployment: every parameter of the views instantiated. *)
Definition sample_run_all : list Operation → DB → DB :=
  run_all sample_serializer sample_serializer sample_download
    sample_ingredient_serializer sample_tag_serializer sample_get_serializer
    sample_recipe_serializer_validation (λ r _, mret r) sample_recipe_representation
    (λ _ _ _ qs, qs) (λ _ _ qs, qs) sample_paginator sample_settings
    sample_recipe_delete.

(** A relation serializer class that wants a field ["ok"] in the body. *)
Definition strict_serializer : RelSerializerClass :=
  {| run_validation := λ d,
       match d !! "ok" with
       | Some _ => inr d
       | None => inl "ok: Обязательное поле."
       end;
     to_representation := λ _ row, {[ "id" := VInt (rel_recipe row) ]} |}.

(** The sample store with recipe 1 twice among the favorites of user 3, as
    no sequence of requests leaves it. *)
Definition sample_db_dup : DB :=
  set_objects Favorite
    (mkTable [ {| rel_id := 1; rel_user := 3; rel_recipe := 1 |};
               {| rel_id := 2; rel_user := 3; rel_recipe := 1 |} ] 3)
    sample_db.

(** * Properties *)

(** ** The two toggles in closed form *)

Ltac run_view :=
  unfold get_object_or_404, recipe_filter, rel_filter, rel_create, rel_delete,
    is_valid, save, serializer_data, new_serializer, qs_get in *;
  unfold mbind, mret, M_bind, M_ret, raise, query, modify, catch in *;
  simpl in *.

Lemma add_recipe_eq request pk model cls message db :
  add_recipe request pk model cls message db =
  match qs_filter (by_id pk) (Recipe_objects db) with
  | [] => (inl (ValidationError "Рецепта с таким id не существует"), db)
  | [recipe] =>
      match user request with
      | AnonymousUser => (inl TypeError, db)
      | User uid =>
          match rows_of uid (recipe_id recipe) (objects model db) with
          | _ :: _ => (inl (ValidationError ("Рецепт уже добавлен в " +:+ message)), db)
          | [] =>
              match run_validation cls (data request) with
              | inl errors => (inl (ValidationError errors), db)
              | inr _ =>
                  let row := new_row model uid recipe db in
                  let db' := insert_row model row db in
                  (inr (mkResponse HTTP_201_CREATED
                          (Object (to_representation cls db' row))), db')
              end
          end
      end
  | _ :: _ :: _ => (inl MultipleObjectsReturned, db)
  end.
Proof.
  unfold add_recipe. run_view.
  destruct (qs_filter (by_id pk) (Recipe_objects db)) as [|recipe [|]] eqn:Hq;
    simpl; rewrite ?Hq; try done.
  destruct (user request) as [|uid]; [done|].
  unfold rows_of, by_recipe_user, qs_filter.
  destruct (List.filter _ (rows (objects model db))); [|done].
  simpl. destruct (run_validation cls (data request)); done.
Qed.

Lemma delete_recipe_eq request pk model message db :
  delete_recipe request pk model message db =
  match qs_filter (by_id pk) (Recipe_objects db) with
  | [] => (inl Http404, db)
  | [recipe] =>
      match user request with
      | AnonymousUser => (inl TypeError, db)
      | User uid =>
          match rows_of uid (recipe_id recipe) (objects model db) with
          | [] => (inl (ValidationError ("Рецепт не добавлен в " +:+ message)), db)
          | [obj] =>
              (inr (mkResponse HTTP_204_NO_CONTENT NoBody), delete_row model obj db)
          | _ :: _ :: _ => (inl MultipleObjectsReturned, db)
          end
      end
  | _ :: _ :: _ => (inl MultipleObjectsReturned, db)
  end.
Proof.
  unfold delete_recipe. run_view.
  destruct (qs_filter (by_id pk) (Recipe_objects db)) as [|recipe [|]] eqn:Hq;
    simpl; try done.
  destruct (user request) as [|uid]; [done|].
  unfold rows_of, by_recipe_user, qs_filter.
  destruct (List.filter _ (rows (objects model db))) as [|obj [|]] eqn:Hr;
    simpl; rewrite ?Hr; done.
Qed.

(** ** Lookups by key *)

Section keyed.

Context {A : Type} (key : A → Z).

Lemma filter_key_absent (k : Z) (l : list A) :
  k ∉ key <$> l → List.filter (λ r, bool_decide (key r = k)) l = [].
Proof.
  induction l as [|a l IH]; [done|].
  rewrite fmap_cons, not_elem_of_cons. intros [Hne Hl]. simpl.
  rewrite bool_decide_eq_false_2 by congruence. auto.
Qed.

Lemma filter_key_unique (x : A) (l : list A) :
  NoDup (key <$> l) → x ∈ l →
  List.filter (λ r, bool_decide (key r = key x)) l = [x].
Proof.
  induction l as [|a l IH]; [by intros _ ?%elem_of_nil|].
  rewrite fmap_cons, NoDup_cons. intros [Hnotin Hnd] Hin. simpl.
  apply elem_of_cons in Hin as [->|Hin].
  - rewrite bool_decide_eq_true_2 by done.
    by rewrite filter_key_absent.
  - rewrite bool_decide_eq_false_2; [by apply IH|].
    intros Heq. apply Hnotin. rewrite Heq.
    by apply list_elem_of_fmap_2.
Qed.

Lemma filter_key_keeps (k : Z) (l : list A) :
  k ∉ key <$> l → List.filter (λ r, negb (bool_decide (key r = k))) l = l.
Proof.
  induction l as [|a l IH]; [done|].
  rewrite fmap_cons, not_elem_of_cons. intros [Hne Hl]. simpl.
  rewrite bool_decide_eq_false_2 by congruence. simpl. by rewrite IH.
Qed.

(** Deleting by a key that is distinct in the list removes exactly the row
    that carries it. *)
Lemma filter_key_removes (x : A) (l1 l2 : list A) :
  NoDup (key <$> (l1 ++ x :: l2)) →
  List.filter (λ r, negb (bool_decide (key r = key x))) (l1 ++ x :: l2) = l1 ++ l2.
Proof.
  rewrite fmap_app, fmap_cons. intros Hnd.
  apply NoDup_app in Hnd as (Hnd1 & Hdisj & Hnd2).
  apply NoDup_cons in Hnd2 as [Hx2 Hnd2].
  rewrite List.filter_app. simpl.
  rewrite bool_decide_eq_true_2 by done. simpl.
  rewrite !filter_key_keeps; [done|done|].
  intros Hin. apply (Hdisj _ Hin). left.
Qed.

End keyed.

Lemma filter_elem_of {A} (P : A → bool) (l : list A) (x : A) :
  x ∈ List.filter P l ↔ x ∈ l ∧ P x = true.
Proof. rewrite !list_elem_of_In. apply List.filter_In. Qed.

Lemma filter_length_le {A} (P : A → bool) (l : list A) :
  (length (List.filter P l) ≤ length l)%nat.
Proof. apply List.filter_length_le. Qed.

Lemma filter_comm {A} (P Q : A → bool) (l : list A) :
  List.filter P (List.filter Q l) = List.filter Q (List.filter P l).
Proof.
  induction l as [|a l IH]; [done|]. simpl.
  destruct (P a) eqn:HP, (Q a) eqn:HQ; simpl; rewrite ?HP, ?HQ, ?IH; done.
Qed.

Lemma recipe_filter_absent pk db :
  Forall (λ r, recipe_id r ≠ pk) (rows (Recipe_objects db)) →
  qs_filter (by_id pk) (Recipe_objects db) = [].
Proof.
  intros Hall. unfold qs_filter, by_id.
  apply (filter_key_absent recipe_id).
  intros (r & -> & Hin)%list_elem_of_fmap.
  rewrite Forall_forall in Hall. by apply (Hall r).
Qed.

Lemma recipe_filter_present recipe db :
  pk_ok recipe_id (Recipe_objects db) →
  recipe ∈ rows (Recipe_objects db) →
  qs_filter (by_id (recipe_id recipe)) (Recipe_objects db) = [recipe].
Proof.
  intros [Hnd _] Hin. unfold qs_filter, by_id.
  by apply (filter_key_unique recipe_id).
Qed.

(** An action open to authenticated users runs its handler for them. *)
Lemma action_authenticated {A} methods handler request :
  is_authenticated (user request) = true →
  method request ∈ methods →
  action methods [IsAuthenticated (A := A)] handler request = handler request.
Proof.
  intros Hauth Hm. unfold action. simpl. rewrite Hauth.
  rewrite bool_decide_eq_true_2 by done. done.
Qed.

Lemma action_anonymous {A} methods handler request db :
  user request = AnonymousUser →
  action methods [IsAuthenticated (A := A)] handler request db
  = (inl NotAuthenticated, db).
Proof. intros Hu. unfold action. simpl. unfold permission_denied. rewrite Hu. reflexivity. Qed.

(** ** C1: a recipe id that does not exist *)

(** C1, as stated, fails on the add path: with no recipe 5 in the store, an
    authenticated POST to the favorite action is answered 400 with the
    validation message of [add_recipe], not 404. *)
Lemma missing_recipe_add_not_404 :
  let request := sample_request POST (User 3) in
  let response := fst (respond (favorite_action sample_serializer request 5) empty_db) in
  Forall (λ r, recipe_id r ≠ 5) (rows (Recipe_objects empty_db))
  ∧ response = mkResponse HTTP_400_BAD_REQUEST
                          (Detail "Рецепта с таким id не существует")
  ∧ status response ≠ HTTP_404_NOT_FOUND.
Proof. split; [constructor|]. split; [reflexivity|]. vm_compute. discriminate. Qed.

(** C1, amended: when no recipe has the id named by an authenticated
    request, the delete path of both toggles answers 404 through
    [get_object_or_404], the add path of both answers 400 with the
    validation error raised by the existence guard of [add_recipe], and the
    store is left as it was. *)
Theorem missing_recipe_response FS CS request pk db :
  is_authenticated (user request) = true →
  Forall (λ r, recipe_id r ≠ pk) (rows (Recipe_objects db)) →
  (method request = DELETE →
     respond (favorite_action FS request pk) db
       = (mkResponse HTTP_404_NOT_FOUND NoBody, db)
     ∧ respond (shopping_cart_action CS request pk) db
       = (mkResponse HTTP_404_NOT_FOUND NoBody, db))
  ∧ (method request = POST →
     respond (favorite_action FS request pk) db
       = (mkResponse HTTP_400_BAD_REQUEST
            (Detail "Рецепта с таким id не существует"), db)
     ∧ respond (shopping_cart_action CS request pk) db
       = (mkResponse HTTP_400_BAD_REQUEST
            (Detail "Рецепта с таким id не существует"), db)).
Proof.
  intros Hauth Hmissing%recipe_filter_absent.
  unfold favorite_action, shopping_cart_action, respond.
  split; intros Hm;
    rewrite !action_authenticated by (rewrite ?Hm; done || set_solver);
    unfold favorite, shopping_cart; rewrite Hm; simpl;
    rewrite ?add_recipe_eq, ?delete_recipe_eq, Hmissing; done.
Qed.

Lemma missing_recipe_response_witness :
  respond (favorite_action sample_serializer (sample_request DELETE (User 3)) 5)
          sample_db
  = (mkResponse HTTP_404_NOT_FOUND NoBody, sample_db).
Proof.
  apply (missing_recipe_response sample_serializer sample_serializer
           (sample_request DELETE (User 3)) 5 sample_db); [reflexivity| |reflexivity].
  repeat constructor. simpl. lia.
Defined.

(** ** The store around one relation table *)

Lemma objects_set_objects model t db : objects model (set_objects model t db) = t.
Proof. by destruct model. Qed.

Lemma objects_set_objects_other model t db :
  objects (swap_model model) (set_objects model t db) = objects (swap_model model) db.
Proof. by destruct model. Qed.

Lemma same_except_set_objects model t db : same_except model db (set_objects model t db).
Proof. by destruct model. Qed.

Lemma rows_of_app uid recipe (l1 l2 : list Relation) n m k :
  rows_of uid recipe (mkTable (l1 ++ l2) n)
  = rows_of uid recipe (mkTable l1 m) ++ rows_of uid recipe (mkTable l2 k).
Proof. unfold rows_of. simpl. apply List.filter_app. Qed.

Lemma rows_of_spec uid recipe t r :
  r ∈ rows_of uid recipe t ↔ r ∈ rows t ∧ rel_recipe r = recipe ∧ rel_user r = uid.
Proof.
  unfold rows_of. rewrite filter_elem_of, andb_true_iff, !bool_decide_eq_true.
  done.
Qed.

(** ** C2: the toggles check membership first *)

(** C2: for a user and an existing recipe, in a store whose primary keys are
    distinct and whose relation rows are unique per user and recipe, the add
    operation raises a validation error when the row is there and otherwise
    (the serializer accepting the request body) appends exactly one row for
    the pair; the delete operation raises a validation error when the row is
    not there and otherwise removes exactly that row.  Nothing else in the
    store changes. *)
Theorem toggle_checks_membership request uid recipe model cls message db :
  wf_db db →
  user request = User uid →
  recipe ∈ rows (Recipe_objects db) →
  let pk := recipe_id recipe in
  let present := rows_of uid pk (objects model db) in
  (present ≠ [] →
     add_recipe request pk model cls message db
     = (inl (ValidationError ("Рецепт уже добавлен в " +:+ message)), db))
  ∧ (present = [] → ∀ vd, run_validation cls (data request) = inr vd →
     ∃ response db',
       add_recipe request pk model cls message db = (inr response, db')
       ∧ rows (objects model db')
         = rows (objects model db) ++ [new_row model uid recipe db]
       ∧ rows_of uid pk (objects model db') = [new_row model uid recipe db]
       ∧ same_except model db db')
  ∧ (present = [] →
     delete_recipe request pk model message db
     = (inl (ValidationError ("Рецепт не добавлен в " +:+ message)), db))
  ∧ (present ≠ [] →
     ∃ obj l1 l2 db',
       delete_recipe request pk model message db
       = (inr (mkResponse HTTP_204_NO_CONTENT NoBody), db')
       ∧ rel_user obj = uid ∧ rel_recipe obj = pk
       ∧ rows (objects model db) = l1 ++ obj :: l2
       ∧ rows (objects model db') = l1 ++ l2
       ∧ rows_of uid pk (objects model db') = []
       ∧ same_except model db db').
Proof.
  intros (Hrecipes & Hfav & Hcart & Huniq_f & Huniq_c) Hu Hin. cbv zeta.
  assert (Hpk : pk_ok rel_id (objects model db)) by (by destruct model).
  assert (Huniq : at_most_one (objects model db)) by (by destruct model).
  pose proof (recipe_filter_present recipe db Hrecipes Hin) as Hq.
  rewrite add_recipe_eq, delete_recipe_eq, Hq, Hu.
  set (pk := recipe_id recipe) in *.
  set (present := rows_of uid pk (objects model db)) in *.
  split; [|split; [|split]].
  - destruct present; done.
  - intros Hp vd Hvd. rewrite Hp, Hvd.
    eexists _, _. split; [done|]. unfold insert_row.
    rewrite objects_set_objects. simpl. split; [done|]. split.
    + rewrite (rows_of_app _ _ _ _ _ (next_id (objects model db)) 0).
      replace (rows_of uid pk (mkTable (rows (objects model db)) _)) with present
        by done.
      rewrite Hp. unfold rows_of, new_row. simpl.
      by rewrite !bool_decide_eq_true_2.
    + apply same_except_set_objects.
  - by intros ->.
  - intros Hp. specialize (Huniq uid pk). fold present in Huniq.
    destruct present as [|obj [|]] eqn:Hpresent; [done| |simpl in Huniq; lia].
    assert (Hobj : obj ∈ rows_of uid pk (objects model db))
      by (fold present; rewrite Hpresent; left).
    apply rows_of_spec in Hobj as (Hobj & Hr & Huid).
    apply list_elem_of_split in Hobj as (l1 & l2 & Hsplit).
    exists obj, l1, l2, (delete_row model obj db).
    split; [done|]. split; [done|]. split; [done|]. split; [done|].
    unfold delete_row. rewrite objects_set_objects. simpl.
    destruct Hpk as [Hnd _]. rewrite Hsplit in Hnd |- *.
    rewrite (filter_key_removes rel_id) by done.
    split; [done|]. split; [|apply same_except_set_objects].
    subst present. unfold rows_of in Hpresent |- *. simpl.
    rewrite Hsplit, List.filter_app in Hpresent. simpl in Hpresent.
    rewrite Hr, Huid, !bool_decide_eq_true_2 in Hpresent by done.
    simpl in Hpresent. rewrite List.filter_app.
    destruct (List.filter _ l1); [|destruct l; done].
    simpl in Hpresent. by injection Hpresent as ->.
Qed.

Lemma sample_db_fav_wf : wf_db sample_db_fav.
Proof.
  repeat split; simpl; try (repeat constructor; set_solver || lia).
  all: intros uid recipe; unfold rows_of; simpl; try lia.
  destruct (_ && _); simpl; lia.
Qed.

Lemma toggle_checks_membership_witness :
  wf_db sample_db_fav
  ∧ add_recipe (sample_request POST (User 3)) 1 Favorite sample_serializer
               "избранное" sample_db_fav
    = (inl (ValidationError ("Рецепт уже добавлен в " +:+ "избранное")),
       sample_db_fav).
Proof.
  split; [exact sample_db_fav_wf|].
  apply (toggle_checks_membership (sample_request POST (User 3)) 3 sample_recipe
           Favorite sample_serializer "избранное" sample_db_fav
           sample_db_fav_wf eq_refl).
  - simpl. left.
  - vm_compute. discriminate.
Defined.

(** ** C7: the shopping-list download *)

Lemma for_range_collect {X Y} (g : X → DB → Y) (xs : list X) (n : nat) db :
  (n ≤ length xs)%nat →
  for_range n
    (λ id (acc : list Y),
       match xs !! id with
       | None => raise IndexError
       | Some x => y ← query (g x); mret (acc ++ [y])
       end) [] db
  = (inr ((λ x, g x db) <$> take n xs), db).
Proof.
  unfold for_range. induction n as [|n IH]; intros Hn; [done|].
  rewrite seq_S, foldl_app. simpl.
  unfold mbind at 1, M_bind at 1. rewrite IH by lia.
  destruct (lookup_lt_is_Some_2 xs n) as [x Hx]; [lia|].
  rewrite Hx. rewrite (take_S_r _ _ x), fmap_app by done. reflexivity.
Qed.

Lemma download_shopping_cart_eq download request db :
  download_shopping_cart download request db =
  match user request with
  | AnonymousUser => (inl TypeError, db)
  | User uid => (inr (download (ingredients_of db <$> carts_of db uid)), db)
  end.
Proof.
  unfold download_shopping_cart, cart_filter.
  destruct (user request) as [|uid]; [done|].
  unfold mbind at 1, M_bind at 1, query at 1. fold (carts_of db uid).
  unfold mbind at 1, M_bind at 1, ingredient_filter.
  rewrite (for_range_collect
             (λ recipe db, qs_filter (λ ir, bool_decide (ir_recipe ir = recipe))
                             (IngredientRecipe_objects db))) by done.
  rewrite firstn_all, <- list_fmap_compose. reflexivity.
Qed.

(** C7: for an authenticated user, the download action answers with what the
    download helper returns on the list that has, for each cart row of the
    user in the order of the cart rows, the ingredient rows of that row's
    recipe; the cart rows are all rows of [ShoppingCart] of that user, the
    ingredient rows all rows of [IngredientRecipe] of that recipe, and the
    store is not changed. *)
Theorem download_passes_cart_ingredients download request uid db :
  user request = User uid →
  method request = GET →
  respond (download_shopping_cart_action download request) db
  = (download (ingredients_of db <$> carts_of db uid), db)
  ∧ length (ingredients_of db <$> carts_of db uid) = length (carts_of db uid)
  ∧ (∀ i cart, carts_of db uid !! i = Some cart →
       (ingredients_of db <$> carts_of db uid) !! i = Some (ingredients_of db cart))
  ∧ (∀ cart, cart ∈ carts_of db uid
       ↔ cart ∈ rows (ShoppingCart_objects db) ∧ rel_user cart = uid)
  ∧ (∀ cart ir, ir ∈ ingredients_of db cart
       ↔ ir ∈ rows (IngredientRecipe_objects db) ∧ ir_recipe ir = rel_recipe cart).
Proof.
  intros Hu Hm. split; [|split; [|split; [|split]]].
  - unfold download_shopping_cart_action, respond.
    rewrite action_authenticated by (rewrite ?Hu, ?Hm; done || set_solver).
    by rewrite download_shopping_cart_eq, Hu.
  - apply length_fmap.
  - intros i cart Hi. by rewrite list_lookup_fmap, Hi.
  - intros cart. unfold carts_of, qs_filter.
    by rewrite filter_elem_of, bool_decide_eq_true.
  - intros cart ir. unfold ingredients_of, qs_filter.
    by rewrite filter_elem_of, bool_decide_eq_true.
Qed.

Lemma download_passes_cart_ingredients_witness :
  respond (download_shopping_cart_action sample_download
             (sample_request GET (User 3))) sample_db_cart
  = (mkResponse HTTP_200_OK
       (Objects [ {[ "rows" := VInt 1 ]}; {[ "rows" := VInt 2 ]} ]),
     sample_db_cart).
Proof.
  exact (proj1 (download_passes_cart_ingredients sample_download
                  (sample_request GET (User 3)) 3 sample_db_cart eq_refl eq_refl)).
Defined.

(** ** C4 and C8: status codes, and failures that change nothing *)

(** C4: an add that succeeds answers 201 Created, its body the
    representation of the row it has just appended for the requesting user
    and the recipe named; a delete that succeeds answers 204 No Content
    without a body. *)
Theorem toggle_status_codes request pk model cls message db response db' :
  (add_recipe request pk model cls message db = (inr response, db') →
     status response = HTTP_201_CREATED
     ∧ ∃ row,
         rows (objects model db') = rows (objects model db) ++ [row]
         ∧ body response = Object (to_representation cls db' row)
         ∧ user request = User (rel_user row)
         ∧ rel_recipe row = pk)
  ∧ (delete_recipe request pk model message db = (inr response, db') →
     response = mkResponse HTTP_204_NO_CONTENT NoBody).
Proof.
  rewrite add_recipe_eq, delete_recipe_eq.
  destruct (qs_filter (by_id pk) (Recipe_objects db)) as [|recipe [|]] eqn:Hq;
    [done| |done].
  assert (Hid : recipe_id recipe = pk).
  { assert (Hin : recipe ∈ qs_filter (by_id pk) (Recipe_objects db))
      by (rewrite Hq; left).
    apply filter_elem_of in Hin as [_ Hin]. by apply bool_decide_eq_true in Hin. }
  destruct (user request) as [|uid]; [done|].
  destruct (rows_of uid (recipe_id recipe) (objects model db)) as [|obj [|]].
  - split; [|done].
    destruct (run_validation cls (data request)); [done|].
    intros [= <- <-]. split; [done|].
    exists (new_row model uid recipe db). unfold insert_row.
    by rewrite objects_set_objects.
  - split; [done|]. by intros [= <- _].
  - done.
Qed.

Lemma toggle_status_codes_witness :
  let response := mkResponse HTTP_201_CREATED (Object {[ "id" := VInt 1 ]}) in
  add_recipe (sample_request POST (User 3)) 1 Favorite sample_serializer
             "избранное" sample_db
  = (inr response, sample_db_fav)
  ∧ status response = HTTP_201_CREATED.
Proof.
  split; [reflexivity|].
  refine (proj1 (proj1 (toggle_status_codes (sample_request POST (User 3)) 1 Favorite
                   sample_serializer "избранное" sample_db
                   (mkResponse HTTP_201_CREATED (Object {[ "id" := VInt 1 ]}))
                   sample_db_fav) _)).
  reflexivity.
Defined.

(** C8: when an add or a delete of a toggle ends in an exception, a
    validation error for a duplicate, for a missing membership or for a
    missing recipe included, the store is the one the operation started
    from: no relation row has been inserted or deleted. *)
Theorem failed_toggle_keeps_store request pk model cls message db e db' :
  (add_recipe request pk model cls message db = (inl e, db') → db' = db)
  ∧ (delete_recipe request pk model message db = (inl e, db') → db' = db).
Proof.
  rewrite add_recipe_eq, delete_recipe_eq.
  destruct (qs_filter (by_id pk) (Recipe_objects db)) as [|recipe [|]];
    [split; congruence| |split; congruence].
  destruct (user request) as [|uid]; [split; congruence|].
  destruct (rows_of uid (recipe_id recipe) (objects model db)) as [|obj [|]];
    [|split; congruence..].
  destruct (run_validation cls (data request)); split; congruence.
Qed.

Lemma failed_toggle_keeps_store_witness :
  let run := add_recipe (sample_request POST (User 3)) 1 Favorite sample_serializer
                        "избранное" sample_db_fav in
  fst run = inl (ValidationError "Рецепт уже добавлен в избранное")
  ∧ snd run = sample_db_fav.
Proof.
  split; [reflexivity|].
  apply (proj1 (failed_toggle_keeps_store (sample_request POST (User 3)) 1 Favorite
                  sample_serializer "избранное" sample_db_fav
                  (ValidationError "Рецепт уже добавлен в избранное")
                  _)).
  reflexivity.
Defined.

(** ** C9: one operation at two relation models *)

Lemma swap_tables_involutive db : swap_tables (swap_tables db) = db.
Proof. by destruct db. Qed.

Lemma objects_swap model db : objects (swap_model model) (swap_tables db) = objects model db.
Proof. by destruct model. Qed.

Lemma set_objects_swap model t db :
  set_objects (swap_model model) t (swap_tables db) = swap_tables (set_objects model t db).
Proof. by destruct model. Qed.

Lemma add_recipe_swap request pk model cls message db :
  add_recipe request pk (swap_model model) (swap_class cls) message (swap_tables db)
  = (let '(r, db') := add_recipe request pk model cls message db in
     (r, swap_tables db')).
Proof.
  rewrite !add_recipe_eq. change (Recipe_objects (swap_tables db)) with (Recipe_objects db).
  destruct (qs_filter (by_id pk) (Recipe_objects db)) as [|recipe [|]]; try done.
  destruct (user request) as [|uid]; [done|].
  rewrite objects_swap.
  destruct (rows_of uid (recipe_id recipe) (objects model db)); [|done].
  simpl. destruct (run_validation cls (data request)); [done|].
  unfold insert_row, new_row. rewrite !objects_swap, set_objects_swap.
  by rewrite swap_tables_involutive.
Qed.

Lemma delete_recipe_swap request pk model message db :
  delete_recipe request pk (swap_model model) message (swap_tables db)
  = (let '(r, db') := delete_recipe request pk model message db in
     (r, swap_tables db')).
Proof.
  rewrite !delete_recipe_eq.
  change (Recipe_objects (swap_tables db)) with (Recipe_objects db).
  destruct (qs_filter (by_id pk) (Recipe_objects db)) as [|recipe [|]]; try done.
  destruct (user request) as [|uid]; [done|].
  rewrite objects_swap.
  destruct (rows_of uid (recipe_id recipe) (objects model db)) as [|obj [|]];
    try done.
  unfold delete_row. by rewrite !objects_swap, set_objects_swap.
Qed.

Lemma toggle_message model cls message message' request pk db :
  snd (toggle model cls message request pk db)
  = snd (toggle model cls message' request pk db)
  ∧ sum_map erase_detail id (fst (toggle model cls message request pk db))
    = sum_map erase_detail id (fst (toggle model cls message' request pk db)).
Proof.
  unfold toggle. case_bool_decide; rewrite ?add_recipe_eq, ?delete_recipe_eq.
  - destruct (qs_filter (by_id pk) (Recipe_objects db)) as [|recipe [|]]; try done.
    destruct (user request) as [|uid]; [done|].
    destruct (rows_of uid (recipe_id recipe) (objects model db)); [|done].
    by destruct (run_validation cls (data request)).
  - destruct (qs_filter (by_id pk) (Recipe_objects db)) as [|recipe [|]]; try done.
    destruct (user request) as [|uid]; [done|].
    by destruct (rows_of uid (recipe_id recipe) (objects model db)) as [|obj [|]].
Qed.

(** C9: [favorite] and [shopping_cart] are the one toggle of [add_recipe] and
    [delete_recipe], at [Favorite] with the favorite serializer and at
    [ShoppingCart] with the cart serializer.  The toggle at one model is the
    toggle at the other with the two tables exchanged, and its message
    reaches nothing but the text of a validation error: the store left and
    the result up to that text do not depend on it. *)
Theorem toggles_are_one_operation FS CS model cls message message' request pk db :
  favorite FS request pk = toggle Favorite FS "избранное" request pk
  ∧ shopping_cart CS request pk = toggle ShoppingCart CS "список покупок" request pk
  ∧ toggle (swap_model model) (swap_class cls) message request pk (swap_tables db)
    = (let '(r, db') := toggle model cls message request pk db in
       (r, swap_tables db'))
  ∧ snd (toggle model cls message request pk db)
    = snd (toggle model cls message' request pk db)
  ∧ sum_map erase_detail id (fst (toggle model cls message request pk db))
    = sum_map erase_detail id (fst (toggle model cls message' request pk db)).
Proof.
  split; [done|]. split; [done|]. split; [|apply toggle_message].
  unfold toggle. case_bool_decide.
  - apply add_recipe_swap.
  - apply delete_recipe_swap.
Qed.

(** ** C6: who may write a recipe *)

Section recipe_permissions.

Context (GetRecipeSerializer : ModelSerializerClass Recipe).
Context (PostRecipe_run_validation : bool → Data → string + Data).
Context (PostRecipe_update : Recipe → Data → M Recipe).
Context (PostRecipe_to_representation : DB → Recipe → Data).
Context (RecipeFilter : Request → DB → list Recipe → list Recipe).
Context (Pagination : Paginator).
Context (Recipe_delete : Recipe → M unit).

Let view : ViewSet Recipe :=
  RecipeViewSet GetRecipeSerializer PostRecipe_run_validation PostRecipe_update
                PostRecipe_to_representation RecipeFilter Pagination Recipe_delete.

Lemma recipe_check_permissions request db :
  check_permissions (permission_classes view) request db =
  if is_safe (method request) || is_authenticated (user request)
  then (inr (), db) else (inl NotAuthenticated, db).
Proof.
  simpl. destruct (is_safe (method request)); simpl; [done|].
  unfold permission_denied. by destruct (is_authenticated (user request)).
Qed.

Lemma recipe_check_object_permissions request obj db :
  check_object_permissions (permission_classes view) request obj db =
  if is_safe (method request)
     || bool_decide (user request = User (recipe_author obj))
  then (inr (), db)
  else (inl (if is_authenticated (user request)
             then PermissionDenied else NotAuthenticated), db).
Proof.
  simpl. destruct (is_safe (method request)); simpl; [done|].
  case_bool_decide; [done|].
  unfold permission_denied. by destruct (is_authenticated (user request)).
Qed.

Lemma recipe_get_object request pk obj db :
  List.filter (λ r, bool_decide (recipe_id r = pk))
              (RecipeFilter request db (rows (Recipe_objects db))) = [obj] →
  get_object view request pk db =
  match check_object_permissions (permission_classes view) request obj db with
  | (inr _, db') => (inr obj, db')
  | (inl e, db') => (inl e, db')
  end.
Proof.
  intros Hfound. unfold get_object.
  unfold mbind at 1, M_bind at 1.
  unfold get_object_or_404, catch, query.
  unfold mbind at 1, M_bind at 1. simpl in *. rewrite Hfound. simpl.
  unfold mbind, M_bind.
  destruct (is_safe (method request) || _); [done|].
  unfold permission_denied. by destruct (is_authenticated (user request)).
Qed.

(** C6: for [RecipeViewSet], a safe request passes both the view-level and
    the object-level check, whoever sends it.  A request that is not safe
    passes the view-level check, the only one before create, exactly when the
    requester is authenticated, and passes both checks, as update and delete
    need on the recipe they fetch, exactly when the requester is the author
    of the recipe.  Through [dispatch], an anonymous write is refused as not
    authenticated and an update or delete of a found recipe by somebody else
    as permission denied, the store untouched. *)
Theorem recipe_write_permission request obj db :
  let classes := permission_classes view in
  (is_safe (method request) = true →
     check_permissions classes request db = (inr (), db)
     ∧ check_object_permissions classes request obj db = (inr (), db))
  ∧ (is_safe (method request) = false →
     (check_permissions classes request db = (inr (), db)
        ↔ is_authenticated (user request) = true)
     ∧ (check_permissions classes request db = (inr (), db)
        ∧ check_object_permissions classes request obj db = (inr (), db)
        ↔ user request = User (recipe_author obj))
     ∧ (is_authenticated (user request) = false →
        ∀ route, dispatch view route request db = (inl NotAuthenticated, db))
     ∧ (∀ pk,
          method request ∈ [PUT; PATCH; DELETE] →
          List.filter (λ r, bool_decide (recipe_id r = pk))
            (RecipeFilter request db (rows (Recipe_objects db))) = [obj] →
          is_authenticated (user request) = true →
          user request ≠ User (recipe_author obj) →
          dispatch view (detail_route pk) request db = (inl PermissionDenied, db))).
Proof.
  cbv zeta. split.
  - intros Hsafe.
    by rewrite recipe_check_permissions, recipe_check_object_permissions, Hsafe.
  - intros Hsafe. split; [|split; [|split]].
    + rewrite recipe_check_permissions, Hsafe. simpl.
      by destruct (is_authenticated (user request)).
    + rewrite recipe_check_permissions, recipe_check_object_permissions, Hsafe.
      simpl. case_bool_decide as Hauthor.
      * rewrite Hauthor. simpl. done.
      * simpl. split; [intros [_ ?]; discriminate|done].
    + intros Hanon route. unfold dispatch.
      unfold mbind, M_bind. by rewrite recipe_check_permissions, Hsafe, Hanon.
    + intros pk Hm Hfound Hauth Hother. unfold dispatch.
      unfold mbind at 1, M_bind at 1.
      rewrite recipe_check_permissions, Hsafe, Hauth. simpl.
      assert (Hdenied : get_object view request pk db = (inl PermissionDenied, db)).
      { rewrite (recipe_get_object _ _ obj) by done.
        rewrite recipe_check_object_permissions, Hsafe, Hauth. simpl.
        by rewrite bool_decide_eq_false_2. }
      apply elem_of_cons in Hm as [Hm|Hm]; [|apply elem_of_cons in Hm as [Hm|Hm];
        [|apply list_elem_of_singleton in Hm]];
        rewrite Hm; simpl;
        unfold update_view, destroy_view; unfold mbind at 1, M_bind at 1;
        by rewrite Hdenied.
Qed.

End recipe_permissions.

Lemma recipe_write_permission_witness :
  is_safe DELETE = false
  ∧ dispatch sample_view (detail_route 1) (sample_request DELETE (User 3)) sample_db
    = (inl PermissionDenied, sample_db).
Proof.
  split; [reflexivity|].
  apply (proj2 (recipe_write_permission sample_get_serializer
                  sample_recipe_serializer_validation (λ r _, mret r)
                  sample_recipe_representation (λ _ _ qs, qs) sample_paginator
                  sample_recipe_delete (sample_request DELETE (User 3))
                  sample_recipe sample_db) eq_refl).
  - simpl. repeat constructor.
  - reflexivity.
  - reflexivity.
  - simpl. discriminate.
Defined.

(** ** C5: the author of a new recipe *)

Section recipe_create.

Context (GetRecipeSerializer : ModelSerializerClass Recipe).
Context (PostRecipe_run_validation : bool → Data → string + Data).
Context (PostRecipe_update : Recipe → Data → M Recipe).
Context (PostRecipe_to_representation : DB → Recipe → Data).
Context (RecipeFilter : Request → DB → list Recipe → list Recipe).
Context (Pagination : Paginator).
Context (Recipe_delete : Recipe → M unit).

Let view : ViewSet Recipe :=
  RecipeViewSet GetRecipeSerializer PostRecipe_run_validation PostRecipe_update
                PostRecipe_to_representation RecipeFilter Pagination Recipe_delete.

Lemma create_with_author (validated_data : Data) (uid : Z) db :
  Recipe_objects_create ({[ "author" := VInt uid ]} ∪ validated_data) db =
  let recipe := {| recipe_id := next_id (Recipe_objects db);
                   recipe_author := uid;
                   recipe_fields := delete "author" validated_data |} in
  (inr recipe,
   set_recipes (mkTable (rows (Recipe_objects db) ++ [recipe])
                        (next_id (Recipe_objects db) + 1)) db).
Proof.
  unfold Recipe_objects_create.
  rewrite (lookup_union_Some_l _ _ _ (VInt uid)) by apply lookup_singleton_eq.
  by rewrite delete_union, delete_singleton_eq, (left_id_L ∅ (∪)).
Qed.

(** C5: a create request of an authenticated user whose body the serializer
    accepts stores one new recipe whose author is the requesting user,
    whatever author the validated body may carry, answers 201 with its
    representation and changes nothing else; the view's create hook is the
    mixin's save with the author added, and its update and destroy hooks are
    the mixins' own, a plain save and a plain delete. *)
Theorem recipe_author_is_requester request uid validated_data db :
  user request = User uid →
  method request = POST →
  PostRecipe_run_validation false (data request) = inr validated_data →
  let recipe := {| recipe_id := next_id (Recipe_objects db);
                   recipe_author := uid;
                   recipe_fields := delete "author" validated_data |} in
  let db' := set_recipes (mkTable (rows (Recipe_objects db) ++ [recipe])
                                  (next_id (Recipe_objects db) + 1)) db in
  dispatch view list_route request db
  = (inr (mkResponse HTTP_201_CREATED
            (Object (PostRecipe_to_representation db' recipe))), db')
  ∧ (∀ serializer,
       perform_create view request serializer
       = ms_save serializer {[ "author" := VInt uid ]}
       ∧ CreateModelMixin_perform_create request serializer
         = ms_save serializer ∅)
  ∧ perform_update view = UpdateModelMixin_perform_update
  ∧ perform_destroy view = DestroyModelMixin_perform_destroy Recipe_delete.
Proof.
  intros Hu Hm Hvalid. cbv zeta. split; [|split; [|done]].
  - unfold view, dispatch. unfold mbind at 1, M_bind at 1.
    rewrite recipe_check_permissions, Hu, orb_true_r, Hm. simpl.
    unfold create_view. simpl. rewrite Hm. simpl.
    unfold mbind at 1, M_bind at 1, ms_is_valid. simpl. rewrite Hvalid.
    unfold mret at 1, M_ret at 1.
    unfold mbind at 1, M_bind at 1, ms_save. simpl.
    unfold mbind at 1, M_bind at 1. rewrite Hu. simpl.
    by rewrite create_with_author.
  - intros serializer. simpl. by rewrite Hu.
Qed.

End recipe_create.

Lemma recipe_author_is_requester_witness :
  let request := {| method := POST; user := User 3;
                    data := {[ "author" := VInt 99; "name" := VStr "borsch" ]};
                    query_params := ∅ |} in
  let recipe := {| recipe_id := 2; recipe_author := 3;
                   recipe_fields := {[ "name" := VStr "borsch" ]} |} in
  let db' := set_recipes (mkTable [sample_recipe; recipe] 3) sample_db in
  dispatch sample_view list_route request sample_db
  = (inr (mkResponse HTTP_201_CREATED
            (Object {[ "id" := VInt 2; "author" := VInt 3 ]})), db').
Proof.
  exact (proj1 (recipe_author_is_requester sample_get_serializer
                  sample_recipe_serializer_validation (λ r _, mret r)
                  sample_recipe_representation (λ _ _ qs, qs) sample_paginator
                  sample_recipe_delete
                  {| method := POST; user := User 3;
                     data := {[ "author" := VInt 99; "name" := VStr "borsch" ]};
                     query_params := ∅ |}
                  3 {[ "author" := VInt 99; "name" := VStr "borsch" ]} sample_db
                  eq_refl eq_refl eq_refl)).
Defined.

(** ** Views that only read *)

Create HintDb read_only discriminated.

Lemma read_only_ret {A} (a : A) : read_only (mret a).
Proof. done. Qed.

Lemma read_only_raise {A} (e : Exc) : read_only (raise (A := A) e).
Proof. done. Qed.

Lemma read_only_query {A} (f : DB → A) : read_only (query f).
Proof. done. Qed.

Lemma read_only_bind {A B} (m : M A) (k : A → M B) :
  read_only m → (∀ a, read_only (k a)) → read_only (m ≫= k).
Proof.
  intros Hm Hk db. unfold mbind, M_bind. specialize (Hm db).
  destruct (m db) as [[e|a] db']; simpl in *; subst; [done|apply Hk].
Qed.

Lemma read_only_catch {A} (m handler : M A) (exc : Exc) :
  read_only m → read_only handler → read_only (catch m exc handler).
Proof.
  intros Hm Hh db. unfold catch. specialize (Hm db).
  destruct (m db) as [[e|a] db']; simpl in *; subst; [|done].
  case_decide; [apply Hh|done].
Qed.

Lemma read_only_if {A} (b : bool) (m1 m2 : M A) :
  read_only m1 → read_only m2 → read_only (if b then m1 else m2).
Proof. by destruct b. Qed.

Lemma read_only_permission_denied {A} request :
  read_only (permission_denied (A := A) request).
Proof. unfold permission_denied. by destruct (is_authenticated _). Qed.

#[global] Hint Resolve read_only_ret read_only_raise read_only_query
  read_only_permission_denied : read_only.
#[global] Hint Extern 2 (read_only (_ ≫= _)) =>
  apply read_only_bind; [|intros ?] : read_only.
#[global] Hint Extern 2 (read_only (catch _ _ _)) => apply read_only_catch : read_only.
#[global] Hint Extern 2 (read_only (if _ then _ else _)) =>
  apply read_only_if : read_only.

Lemma read_only_check_permissions {A} (classes : list (Permission A)) request :
  read_only (check_permissions classes request).
Proof. induction classes; simpl; auto with read_only. Qed.

Lemma read_only_check_object_permissions {A} (classes : list (Permission A))
    request obj :
  read_only (check_object_permissions classes request obj).
Proof. induction classes; simpl; auto with read_only. Qed.

Lemma read_only_qs_get {A} (qs : list A) : read_only (qs_get qs).
Proof. destruct qs as [|? [|]]; simpl; auto with read_only. Qed.

#[global] Hint Resolve read_only_check_permissions
  read_only_check_object_permissions read_only_qs_get : read_only.

Lemma read_only_actions a :
  bool_decide (a ∈ [list_; retrieve])
  = match a with list_ | retrieve => true | _ => false end.
Proof. by destruct a; vm_compute. Qed.

Section read_only_views.

Context {A : Type} `{Model A} (view : ViewSet A).

Lemma read_only_get_object request pk : read_only (get_object view request pk).
Proof. unfold get_object, get_object_or_404. auto 10 with read_only. Qed.

Lemma read_only_list_view request : read_only (list_view view request).
Proof.
  unfold list_view. apply read_only_bind; [auto with read_only|].
  intros queryset. destruct (pagination_class view) as [paginator|];
    [destruct (paginate_queryset paginator A request queryset)|];
    auto with read_only.
Qed.

Lemma read_only_retrieve_view request pk : read_only (retrieve_view view request pk).
Proof.
  unfold retrieve_view. pose proof (read_only_get_object request pk).
  auto with read_only.
Qed.

(** A viewset whose bases are the list and retrieve mixins only reads. *)
Lemma read_only_dispatch route request :
  bases view = [ListModelMixin; RetrieveModelMixin] →
  read_only (dispatch view route request).
Proof.
  intros Hbases. unfold dispatch, actions. rewrite Hbases.
  pose proof (read_only_list_view request).
  apply read_only_bind; [auto with read_only|]. intros _.
  destruct (route_action route (method request)) as [a|]; [|auto with read_only].
  change (mbind mixin_actions [ListModelMixin; RetrieveModelMixin])
    with [list_; retrieve].
  rewrite read_only_actions.
  destruct a, route; simpl; auto using read_only_retrieve_view with read_only.
Qed.

(** Its write methods end in an exception. *)
Lemma write_refused route request db :
  bases view = [ListModelMixin; RetrieveModelMixin] →
  method request ∈ [POST; PUT; PATCH; DELETE] →
  ∃ e, dispatch view route request db = (inl e, db)
       ∧ e ∈ [NotAuthenticated; PermissionDenied; MethodNotAllowed].
Proof.
  intros Hbases Hm. unfold dispatch, actions. rewrite Hbases.
  unfold mbind at 1, M_bind at 1.
  pose proof (read_only_check_permissions (permission_classes view) request db) as Hdb.
  destruct (check_permissions _ request db) as [[e|[]] db'] eqn:Hcheck;
    simpl in Hdb; subst db'.
  - exists e. split; [done|].
    clear -Hcheck. revert Hcheck.
    induction (permission_classes view) as [|p classes IH]; simpl; [done|].
    destruct (has_permission p request); [done|].
    unfold permission_denied. destruct (is_authenticated _); intros [= <-];
      repeat constructor.
  - exists MethodNotAllowed. split; [|repeat constructor].
    change (mbind mixin_actions [ListModelMixin; RetrieveModelMixin])
      with [list_; retrieve].
    destruct route; simpl;
      repeat (apply elem_of_cons in Hm as [->|Hm]); try (by apply elem_of_nil in Hm);
      simpl; rewrite ?read_only_actions; done.
Qed.

End read_only_views.

Lemma respond_snd (view : M Response) db : snd (respond view db) = snd (view db).
Proof. unfold respond. by destruct (view db) as [[?|?] ?]. Qed.

Lemma list_view_unpaginated {A} (view : ViewSet A) request db :
  pagination_class view = None →
  list_view view request db
  = (inr (mkResponse HTTP_200_OK
            (Objects (ms_to_representation (get_serializer_class view request) db
                        <$> filter_queryset view request db (get_queryset view db)))),
     db).
Proof. intros Hnone. unfold list_view. by rewrite Hnone. Qed.

(** ** C10: the ingredient and tag endpoints *)

Section ingredients_and_tags.

Context (IngredientSerializer : ModelSerializerClass Ingredient).
Context (TagSerializer : ModelSerializerClass Tag).
Context (IngredientsSearch :
           list string → Request → DB → list Ingredient → list Ingredient).
Context (REST_FRAMEWORK : Settings).

Let ingredients : ViewSet Ingredient :=
  IngredientViewSet IngredientSerializer IngredientsSearch REST_FRAMEWORK.
Let tags : ViewSet Tag := TagViewSet TagSerializer REST_FRAMEWORK.

(** C10: the ingredient and the tag viewset have the actions list and
    retrieve and no other; whatever the route and the request, the store,
    the [Ingredient] and [Tag] tables in it, is the same after the request;
    a POST, PUT, PATCH or DELETE ends in an exception; and the list view
    answers 200 with the representation of every row of the (searched)
    queryset, with no paginator between the queryset and the response. *)
Theorem ingredients_and_tags_read_only route request db :
  actions ingredients = [list_; retrieve]
  ∧ actions tags = [list_; retrieve]
  ∧ snd (respond (dispatch ingredients route request) db) = db
  ∧ snd (respond (dispatch tags route request) db) = db
  ∧ (method request ∈ [POST; PUT; PATCH; DELETE] →
     (∃ e, dispatch ingredients route request db = (inl e, db)
           ∧ e ∈ [NotAuthenticated; PermissionDenied; MethodNotAllowed])
     ∧ (∃ e, dispatch tags route request db = (inl e, db)
             ∧ e ∈ [NotAuthenticated; PermissionDenied; MethodNotAllowed]))
  ∧ list_view ingredients request db
    = (inr (mkResponse HTTP_200_OK
              (Objects (ms_to_representation IngredientSerializer db
                          <$> IngredientsSearch ["^name"] request db
                                (rows (Ingredient_objects db))))), db)
  ∧ list_view tags request db
    = (inr (mkResponse HTTP_200_OK
              (Objects (ms_to_representation TagSerializer db
                          <$> DEFAULT_FILTER_BACKENDS REST_FRAMEWORK Tag request db
                                (rows (Tag_objects db))))), db).
Proof.
  split; [done|]. split; [done|].
  split; [rewrite respond_snd; by apply read_only_dispatch|].
  split; [rewrite respond_snd; by apply read_only_dispatch|].
  split; [|split; by apply list_view_unpaginated].
  intros Hm. split; by apply write_refused.
Qed.

End ingredients_and_tags.

Lemma ingredients_and_tags_read_only_witness :
  ∃ e,
    dispatch (IngredientViewSet sample_ingredient_serializer (λ _ _ _ qs, qs)
                sample_settings)
             (detail_route 1) (sample_request DELETE (User 3)) sample_db
    = (inl e, sample_db)
    ∧ e ∈ [NotAuthenticated; PermissionDenied; MethodNotAllowed].
Proof.
  refine (proj1 (proj1 (proj2 (proj2 (proj2 (proj2
            (ingredients_and_tags_read_only sample_ingredient_serializer
               sample_tag_serializer (λ _ _ _ qs, qs) sample_settings
               (detail_route 1) (sample_request DELETE (User 3)) sample_db)))))
          _)).
  simpl. repeat constructor.
Defined.

(** ** C3: uniqueness of the relation rows *)

Lemma at_most_one_insert uid recipe (t : Table Relation) n :
  rows_of uid recipe t = [] →
  at_most_one t →
  at_most_one
    (mkTable (rows t ++ [ {| rel_id := next_id t; rel_user := uid; rel_recipe := recipe |} ])
             n).
Proof.
  intros Hfree Huniq u r.
  rewrite (rows_of_app u r _ _ n (next_id t) 0), length_app.
  replace (rows_of u r (mkTable (rows t) (next_id t))) with (rows_of u r t) by done.
  unfold rows_of at 2. simpl.
  destruct (bool_decide (recipe = r)) eqn:Hr; simpl;
    [destruct (bool_decide (uid = u)) eqn:Hu; simpl|].
  - apply bool_decide_eq_true in Hr as <-. apply bool_decide_eq_true in Hu as <-.
    rewrite Hfree. simpl. lia.
  - specialize (Huniq u r). lia.
  - specialize (Huniq u r). lia.
Qed.

Lemma at_most_one_delete (Q : Relation → bool) (t : Table Relation) n :
  at_most_one t → at_most_one (mkTable (List.filter Q (rows t)) n).
Proof.
  intros Huniq u r. specialize (Huniq u r). unfold rows_of in *. simpl.
  rewrite filter_comm. etrans; [apply filter_length_le|done].
Qed.

Lemma unique_relations_set_objects model t db :
  at_most_one t → unique_relations db → unique_relations (set_objects model t db).
Proof. intros Ht [Hf Hc]. destruct model; by split. Qed.

Lemma unique_relations_objects model db :
  unique_relations db → at_most_one (objects model db).
Proof. intros [Hf Hc]. by destruct model. Qed.

Lemma keeps_weaken (P : DB → Prop) {A} (m : M A) (R R' : A → Prop) :
  keeps P m R → (∀ a, R a → R' a) → keeps P m R'.
Proof. intros Hm HR db HP. destruct (Hm db HP). naive_solver. Qed.

Lemma keeps_read_only (P : DB → Prop) {A} (m : M A) :
  read_only m → keeps P m (λ _, True).
Proof. intros Hm db HP. by rewrite Hm. Qed.

Lemma keeps_ret (P : DB → Prop) {A} (a : A) (R : A → Prop) :
  R a → keeps P (mret a) R.
Proof. intros HR db HP. split; [done|]. by intros ? [= <-]. Qed.

Lemma keeps_raise (P : DB → Prop) {A} (e : Exc) (R : A → Prop) :
  keeps P (raise e) R.
Proof. intros db HP. by split. Qed.

Lemma keeps_bind (P : DB → Prop) {A B} (m : M A) (k : A → M B)
    (R : A → Prop) (R' : B → Prop) :
  keeps P m R → (∀ a, R a → keeps P (k a) R') → keeps P (m ≫= k) R'.
Proof.
  intros Hm Hk db HP. unfold mbind, M_bind. destruct (Hm db HP) as [HP' HR].
  destruct (m db) as [[e|a] db']; simpl in *; [done|].
  by apply (Hk a); [apply HR|].
Qed.

Lemma add_recipe_keeps_unique request pk model cls message :
  keeps unique_relations (add_recipe request pk model cls message) (λ _, True).
Proof.
  intros db Huniq. split; [|done]. rewrite add_recipe_eq.
  destruct (qs_filter (by_id pk) (Recipe_objects db)) as [|recipe [|]]; try done.
  destruct (user request) as [|uid]; [done|].
  destruct (rows_of uid (recipe_id recipe) (objects model db)) eqn:Hfree; [|done].
  destruct (run_validation cls (data request)); [done|]. simpl.
  apply unique_relations_set_objects; [|done].
  by apply at_most_one_insert; [|apply unique_relations_objects].
Qed.

Lemma delete_recipe_keeps_unique request pk model message :
  keeps unique_relations (delete_recipe request pk model message) (λ _, True).
Proof.
  intros db Huniq. split; [|done]. rewrite delete_recipe_eq.
  destruct (qs_filter (by_id pk) (Recipe_objects db)) as [|recipe [|]]; try done.
  destruct (user request) as [|uid]; [done|].
  destruct (rows_of uid (recipe_id recipe) (objects model db)) as [|obj [|]];
    try done.
  simpl. apply unique_relations_set_objects; [|done].
  by apply at_most_one_delete, unique_relations_objects.
Qed.

Lemma action_keeps (P : DB → Prop) {A} methods (classes : list (Permission A))
    handler request :
  keeps P (handler request) (λ _, True) →
  keeps P (action methods classes handler request) (λ _, True).
Proof.
  intros Hh. unfold action. eapply keeps_bind.
  - apply keeps_read_only, read_only_check_permissions.
  - intros _ _. case_bool_decide; [done|apply keeps_raise].
Qed.

Lemma Recipe_objects_create_keeps_unique validated_data :
  keeps unique_relations (Recipe_objects_create validated_data) (λ _, True).
Proof.
  intros db Huniq. split; [|done]. unfold Recipe_objects_create.
  by destruct (validated_data !! "author") as [[]|].
Qed.

Lemma route_action_method route request a :
  route_action route (method request) = Some a →
  match a with
  | list_ | retrieve => True
  | create => method request = POST
  | update => method request = PUT
  | partial_update => method request = PATCH
  | destroy => method request = DELETE
  end.
Proof. destruct route, (method request), a; simpl; intros; done. Qed.

Section operations.

Context (FavoriteSerializer ShoppingCartSerializer : RelSerializerClass).
Context (download : list (list IngredientRecipe) → Response).
Context (IngredientSerializer : ModelSerializerClass Ingredient).
Context (TagSerializer : ModelSerializerClass Tag).
Context (GetRecipeSerializer : ModelSerializerClass Recipe).
Context (PostRecipe_run_validation : bool → Data → string + Data).
Context (PostRecipe_update : Recipe → Data → M Recipe).
Context (PostRecipe_to_representation : DB → Recipe → Data).
Context (IngredientsSearch :
           list string → Request → DB → list Ingredient → list Ingredient).
Context (RecipeFilter : Request → DB → list Recipe → list Recipe).
Context (Pagination : Paginator).
Context (REST_FRAMEWORK : Settings).
Context (Recipe_delete : Recipe → M unit).

Let recipes : ViewSet Recipe :=
  RecipeViewSet GetRecipeSerializer PostRecipe_run_validation PostRecipe_update
                PostRecipe_to_representation RecipeFilter Pagination Recipe_delete.
Let ingredients : ViewSet Ingredient :=
  IngredientViewSet IngredientSerializer IngredientsSearch REST_FRAMEWORK.
Let tags : ViewSet Tag := TagViewSet TagSerializer REST_FRAMEWORK.

#[local] Abbreviation run := (run FavoriteSerializer ShoppingCartSerializer download
  IngredientSerializer TagSerializer GetRecipeSerializer PostRecipe_run_validation
  PostRecipe_update PostRecipe_to_representation IngredientsSearch RecipeFilter
  Pagination REST_FRAMEWORK Recipe_delete).
#[local] Abbreviation run_all := (run_all FavoriteSerializer ShoppingCartSerializer
  download IngredientSerializer TagSerializer GetRecipeSerializer
  PostRecipe_run_validation PostRecipe_update PostRecipe_to_representation
  IngredientsSearch RecipeFilter Pagination REST_FRAMEWORK Recipe_delete).

(** What the ORM does when a recipe is updated or deleted is decided by
    the serializers and models outside this file; it is taken not to leave
    two relation rows for one user and recipe. *)
Hypothesis PostRecipe_update_keeps_unique :
  ∀ recipe d, keeps unique_relations (PostRecipe_update recipe d) (λ _, True).
Hypothesis Recipe_delete_keeps_unique :
  ∀ recipe, keeps unique_relations (Recipe_delete recipe) (λ _, True).

Lemma ms_is_valid_keeps (P : DB → Prop) (s : Serializer Recipe) :
  keeps P (ms_is_valid s) (λ s', s_class s' = s_class s ∧ s_instance s' = s_instance s).
Proof.
  unfold ms_is_valid.
  destruct (ms_run_validation _ _ _); [apply keeps_raise|by apply keeps_ret].
Qed.

Lemma ms_save_keeps_unique (s : Serializer Recipe) kwargs :
  s_class s = PostRecipeSerializer PostRecipe_run_validation PostRecipe_update
                                   PostRecipe_to_representation →
  keeps unique_relations (ms_save s kwargs) (λ _, True).
Proof.
  intros Hclass. unfold ms_save. rewrite Hclass. simpl.
  eapply keeps_bind; [|intros; by apply keeps_ret].
  destruct (s_instance s); [apply PostRecipe_update_keeps_unique|].
  apply Recipe_objects_create_keeps_unique.
Qed.

Lemma ms_data_keeps (P : DB → Prop) (s : Serializer Recipe) :
  keeps P (ms_data s) (λ _, True).
Proof.
  apply keeps_read_only. unfold ms_data. destruct (s_instance s); auto with read_only.
Qed.

Lemma recipes_keep_unique route request :
  keeps unique_relations (dispatch recipes route request) (λ _, True).
Proof.
  unfold dispatch. eapply keeps_bind;
    [apply keeps_read_only, read_only_check_permissions|]. intros _ _.
  destruct (route_action route (method request)) as [a|] eqn:Hroute;
    [|apply keeps_read_only; auto with read_only].
  apply route_action_method in Hroute.
  case_bool_decide; [|apply keeps_raise].
  assert (Hwrite : method request ∈ [POST; PUT; PATCH; DELETE] →
            get_serializer_class recipes request
            = PostRecipeSerializer PostRecipe_run_validation PostRecipe_update
                                   PostRecipe_to_representation).
  { intros Hm. simpl.
    repeat (apply elem_of_cons in Hm as [->|Hm]); try done.
    by apply elem_of_nil in Hm. }
  assert (Hobject : ∀ pk, keeps unique_relations (get_object recipes request pk)
                               (λ _, True))
    by (intros; apply keeps_read_only, read_only_get_object).
  destruct a, route; simpl; try apply keeps_raise.
  1-2: apply keeps_read_only, read_only_list_view.
  1: apply keeps_read_only, read_only_retrieve_view.
  1-2: unfold create_view; rewrite Hwrite by (rewrite Hroute; repeat constructor);
    (eapply keeps_bind; [apply ms_is_valid_keeps|]); intros s [Hclass _];
    (eapply keeps_bind; [by apply ms_save_keeps_unique|]); intros s' _;
    (eapply keeps_bind; [apply ms_data_keeps|]); intros; by apply keeps_ret.
  1-2: unfold update_view; rewrite Hwrite by (rewrite Hroute; repeat constructor);
    (eapply keeps_bind; [apply Hobject|]); intros obj _;
    (eapply keeps_bind; [apply ms_is_valid_keeps|]); intros s [Hclass _];
    (eapply keeps_bind; [by apply ms_save_keeps_unique|]); intros s' _;
    (eapply keeps_bind; [apply ms_data_keeps|]); intros; by apply keeps_ret.
  unfold destroy_view.
  (eapply keeps_bind; [apply Hobject|]); intros obj _.
  (eapply keeps_bind; [apply Recipe_delete_keeps_unique|]); intros.
  by apply keeps_ret.
Qed.

Lemma run_keeps_unique op db : unique_relations db → unique_relations (run op db).
Proof.
  intros Huniq. unfold run. rewrite respond_snd.
  destruct op as [request pk|request pk|request|route request|route request
                 |route request]; simpl.
  - apply (action_keeps unique_relations); [|done].
    unfold favorite. case_bool_decide;
      [apply add_recipe_keeps_unique|apply delete_recipe_keeps_unique].
  - apply (action_keeps unique_relations); [|done].
    unfold shopping_cart. case_bool_decide;
      [apply add_recipe_keeps_unique|apply delete_recipe_keeps_unique].
  - apply (action_keeps unique_relations); [|done].
    intros db' ?. by rewrite download_shopping_cart_eq; destruct (user request).
  - by apply recipes_keep_unique.
  - by rewrite read_only_dispatch.
  - by rewrite read_only_dispatch.
Qed.

(** C3: after any sequence of requests to the endpoints of the views, a
    store that had at most one [Favorite] row and at most one
    [ShoppingCart] row for every user and recipe still has at most one of
    each: the only insert, in [add_recipe], comes after the existence query
    for the same user and recipe has found no row. *)
Theorem relations_stay_unique ops db :
  unique_relations db →
  ∀ uid recipe,
    (length (rows_of uid recipe (Favorite_objects (run_all ops db))) ≤ 1)%nat
    ∧ (length (rows_of uid recipe (ShoppingCart_objects (run_all ops db))) ≤ 1)%nat.
Proof.
  intros Huniq uid recipe.
  assert (Hall : unique_relations (run_all ops db)).
  { unfold run_all. revert db Huniq.
    induction ops as [|op ops IH]; intros db Huniq; [done|].
    simpl. by apply IH, run_keeps_unique. }
  destruct Hall as [Hf Hc]. split; [apply Hf|apply Hc].
Qed.

End operations.

Lemma sample_update_keeps_unique (recipe : Recipe) (d : Data) :
  keeps unique_relations (mret recipe) (λ _, True).
Proof. by apply keeps_ret. Qed.

Lemma sample_recipe_delete_keeps_unique recipe :
  keeps unique_relations (sample_recipe_delete recipe) (λ _, True).
Proof. intros db Huniq. by split. Qed.

Lemma sample_db_unique : unique_relations sample_db.
Proof. split; intros uid recipe; simpl; lia. Qed.

(** Two adds of the same favorite, an add to the cart and the deletion of
    the recipe by its author leave one favorite row for user 3, recipe 1. *)
Example sample_run_all_favorites :
  let ops := [ favorite_request (sample_request POST (User 3)) 1;
               favorite_request (sample_request POST (User 3)) 1;
               shopping_cart_request (sample_request POST (User 3)) 1;
               recipes_request (detail_route 1) (sample_request DELETE (User 7)) ] in
  rows (Favorite_objects (sample_run_all ops sample_db))
  = [ {| rel_id := 1; rel_user := 3; rel_recipe := 1 |} ]
  ∧ rows (Recipe_objects (sample_run_all ops sample_db)) = [].
Proof. split; reflexivity. Qed.

Lemma relations_stay_unique_witness :
  let ops := [ favorite_request (sample_request POST (User 3)) 1;
               favorite_request (sample_request POST (User 3)) 1;
               shopping_cart_request (sample_request POST (User 3)) 1;
               recipes_request (detail_route 1) (sample_request DELETE (User 7)) ] in
  unique_relations sample_db
  ∧ (length (rows_of 3 1 (Favorite_objects (sample_run_all ops sample_db))) ≤ 1)%nat.
Proof.
  split; [exact sample_db_unique|].
  exact (proj1 (relations_stay_unique sample_serializer sample_serializer
                  sample_download sample_ingredient_serializer sample_tag_serializer
                  sample_get_serializer sample_recipe_serializer_validation
                  (λ r _, mret r) sample_recipe_representation (λ _ _ _ qs, qs)
                  (λ _ _ qs, qs) sample_paginator sample_settings sample_recipe_delete
                  sample_update_keeps_unique sample_recipe_delete_keeps_unique
                  _ sample_db sample_db_unique 3 1)).
Defined.

(** ** The integrity of the store is kept by the toggles *)

Lemma pk_ok_insert (t : Table Relation) row :
  rel_id row = next_id t →
  pk_ok rel_id t →
  pk_ok rel_id (mkTable (rows t ++ [row]) (next_id t + 1)).
Proof.
  intros Hid [Hnd Hlt]. split; simpl.
  - rewrite fmap_app. apply NoDup_app. split; [done|]. split; [|apply NoDup_singleton].
    intros k (r & -> & Hr)%list_elem_of_fmap Hk. simpl in Hk.
    apply list_elem_of_singleton in Hk.
    rewrite Forall_forall in Hlt. specialize (Hlt r Hr). lia.
  - apply Forall_app. split.
    + eapply Forall_impl; [done|]. simpl. intros; lia.
    + apply Forall_singleton. lia.
Qed.

Lemma pk_ok_delete (Q : Relation → bool) (t : Table Relation) :
  pk_ok rel_id t → pk_ok rel_id (mkTable (List.filter Q (rows t)) (next_id t)).
Proof.
  intros [Hnd Hlt]. split; simpl.
  - clear Hlt. revert Hnd. induction (rows t) as [|r l IH]; [done|]. simpl.
    rewrite NoDup_cons. intros [Hr Hl]. destruct (Q r); [|by apply IH].
    rewrite fmap_cons, NoDup_cons. split; [|by apply IH].
    intros (r' & Heq & Hin)%list_elem_of_fmap. apply Hr.
    apply filter_elem_of in Hin as [Hin _]. rewrite Heq.
    by apply list_elem_of_fmap_2.
  - rewrite Forall_forall in Hlt |- *.
    intros r [Hr _]%filter_elem_of. by apply Hlt.
Qed.

Lemma wf_db_set_objects model t db :
  pk_ok rel_id t → unique_relations (set_objects model t db) →
  wf_db db → wf_db (set_objects model t db).
Proof. intros Ht Hu (Hr & Hf & Hc & _). by destruct model. Qed.

(** A toggle leaves a store with distinct primary keys and unique relation
    rows in that state, so the premises of C2 hold from request to request. *)
Lemma toggle_keeps_wf model cls message request pk :
  keeps wf_db (toggle model cls message request pk) (λ _, True).
Proof.
  intros db Hwf. split; [|done].
  assert (Hpk : pk_ok rel_id (objects model db))
    by (destruct Hwf as (_ & ? & ? & _); by destruct model).
  assert (Huniq : unique_relations db) by apply Hwf.
  unfold toggle. case_bool_decide.
  - destruct (add_recipe_keeps_unique request pk model cls message db Huniq)
      as [Hu _].
    revert Hu. rewrite add_recipe_eq.
    destruct (qs_filter (by_id pk) (Recipe_objects db)) as [|recipe [|]]; try done.
    destruct (user request) as [|uid]; [done|].
    destruct (rows_of uid (recipe_id recipe) (objects model db)); [|done].
    destruct (run_validation cls (data request)); [done|]. simpl. intros Hu.
    apply wf_db_set_objects; [|done..]. by apply pk_ok_insert.
  - destruct (delete_recipe_keeps_unique request pk model message db Huniq)
      as [Hu _].
    revert Hu. rewrite delete_recipe_eq.
    destruct (qs_filter (by_id pk) (Recipe_objects db)) as [|recipe [|]]; try done.
    destruct (user request) as [|uid]; [done|].
    destruct (rows_of uid (recipe_id recipe) (objects model db)) as [|obj [|]];
      try done.
    simpl. intros Hu. apply wf_db_set_objects; [|done..]. by apply pk_ok_delete.
Qed.

(** ** Runs on the sample store *)

(** A favorite added and then removed: 201, then 204, and the table is empty
    again, its next primary key used up. *)
Example favorite_round_trip :
  let add := respond (favorite_action sample_serializer (sample_request POST (User 3)) 1) in
  let del := respond (favorite_action sample_serializer (sample_request DELETE (User 3)) 1) in
  fst (add sample_db) = mkResponse HTTP_201_CREATED (Object {[ "id" := VInt 1 ]})
  ∧ snd (add sample_db) = sample_db_fav
  ∧ fst (del sample_db_fav) = mkResponse HTTP_204_NO_CONTENT NoBody
  ∧ Favorite_objects (snd (del sample_db_fav)) = mkTable [] 2.
Proof. repeat split; reflexivity. Qed.

(** The same add twice, and a delete of what is not there: 400 with the
    message for the table concerned. *)
Example favorite_errors :
  fst (respond (favorite_action sample_serializer (sample_request POST (User 3)) 1)
               sample_db_fav)
  = mkResponse HTTP_400_BAD_REQUEST (Detail "Рецепт уже добавлен в избранное")
  ∧ fst (respond (shopping_cart_action sample_serializer
                    (sample_request DELETE (User 3)) 1) sample_db_fav)
    = mkResponse HTTP_400_BAD_REQUEST (Detail "Рецепт не добавлен в список покупок").
Proof. split; reflexivity. Qed.

(** The actions ask for an authenticated user, and know POST and DELETE. *)
Example favorite_anonymous_or_put :
  fst (respond (favorite_action sample_serializer (sample_request POST AnonymousUser) 1)
               sample_db)
  = mkResponse HTTP_401_UNAUTHORIZED NoBody
  ∧ fst (respond (favorite_action sample_serializer (sample_request PUT (User 3)) 1)
                 sample_db)
    = mkResponse HTTP_405_METHOD_NOT_ALLOWED NoBody.
Proof. split; reflexivity. Qed.

(** * Further properties of the views *)

(** ** Who reaches the extra actions *)

Lemma action_not_allowed {A} methods handler request db :
  is_authenticated (user request) = true →
  method request ∉ methods →
  action methods [IsAuthenticated (A := A)] handler request db
  = (inl MethodNotAllowed, db).
Proof.
  intros Hauth Hm. unfold action. simpl. rewrite Hauth.
  by rewrite bool_decide_eq_false_2.
Qed.

(** The three extra actions of [RecipeViewSet] check the requester before
    anything else: an anonymous request is refused as not authenticated
    whatever its method, its body and the recipe it names, a missing one
    included.  An authenticated request with a method the decorator does
    not list is refused as method not allowed.  Either way the store is
    left as it was. *)
Theorem extra_actions_access FS CS download request pk db :
  (user request = AnonymousUser →
     favorite_action FS request pk db = (inl NotAuthenticated, db)
     ∧ shopping_cart_action CS request pk db = (inl NotAuthenticated, db)
     ∧ download_shopping_cart_action download request db
       = (inl NotAuthenticated, db))
  ∧ (is_authenticated (user request) = true →
     (method request ∈ [GET; HEAD; PUT; PATCH] →
        favorite_action FS request pk db = (inl MethodNotAllowed, db)
        ∧ shopping_cart_action CS request pk db = (inl MethodNotAllowed, db))
     ∧ (method request ∈ [POST; PUT; PATCH; DELETE] →
        download_shopping_cart_action download request db
        = (inl MethodNotAllowed, db))).
Proof.
  split.
  - intros Hanon. unfold favorite_action, shopping_cart_action,
      download_shopping_cart_action. by rewrite !action_anonymous.
  - intros Hauth. unfold favorite_action, shopping_cart_action,
      download_shopping_cart_action.
    split; intros Hm; rewrite !action_not_allowed; try done;
      intros Hin; repeat (apply elem_of_cons in Hm as [Hm|Hm]);
      try (by apply elem_of_nil in Hm);
      rewrite Hm in Hin; repeat (apply elem_of_cons in Hin as [Hin|Hin]);
      try done; by apply elem_of_nil in Hin.
Qed.

Lemma extra_actions_access_witness :
  favorite_action sample_serializer (sample_request POST AnonymousUser) 5 sample_db
  = (inl NotAuthenticated, sample_db).
Proof.
  exact (proj1 (proj1 (extra_actions_access sample_serializer sample_serializer
                         sample_download (sample_request POST AnonymousUser) 5
                         sample_db) eq_refl)).
Defined.

(** ** What a toggle leaves alone *)

Lemma add_recipe_frame request pk model cls message db :
  same_except model db (snd (add_recipe request pk model cls message db)).
Proof.
  rewrite add_recipe_eq.
  destruct (qs_filter (by_id pk) (Recipe_objects db)) as [|recipe [|]];
    try (by repeat split).
  destruct (user request) as [|uid]; [by repeat split|].
  destruct (rows_of uid (recipe_id recipe) (objects model db));
    [|by repeat split].
  destruct (run_validation cls (data request)); [by repeat split|].
  apply same_except_set_objects.
Qed.

Lemma delete_recipe_frame request pk model message db :
  same_except model db (snd (delete_recipe request pk model message db)).
Proof.
  rewrite delete_recipe_eq.
  destruct (qs_filter (by_id pk) (Recipe_objects db)) as [|recipe [|]];
    try (by repeat split).
  destruct (user request) as [|uid]; [by repeat split|].
  destruct (rows_of uid (recipe_id recipe) (objects model db)) as [|obj [|]];
    try (by repeat split).
  apply same_except_set_objects.
Qed.

Lemma action_frame {A} model methods (classes : list (Permission A)) handler
    request db :
  (∀ db, same_except model db (snd (handler request db))) →
  same_except model db (snd (action methods classes handler request db)).
Proof.
  intros Hh. unfold action. unfold mbind, M_bind.
  pose proof (read_only_check_permissions classes request db) as Hdb.
  destruct (check_permissions classes request db) as [[e|[]] db']; simpl in Hdb;
    subst db'; [by repeat split|].
  case_bool_decide; [apply Hh|by repeat split].
Qed.

(** Whatever the request and however it ends, the favorite action changes
    no table but [Favorite], and the shopping-cart action no table but
    [ShoppingCart]: recipes, ingredients, tags, ingredient associations and
    the other relation table are the same afterwards. *)
Theorem toggle_touches_one_table FS CS request pk db :
  let after_favorite := snd (respond (favorite_action FS request pk) db) in
  let after_cart := snd (respond (shopping_cart_action CS request pk) db) in
  (Recipe_objects after_favorite = Recipe_objects db
   ∧ ShoppingCart_objects after_favorite = ShoppingCart_objects db
   ∧ IngredientRecipe_objects after_favorite = IngredientRecipe_objects db
   ∧ Ingredient_objects after_favorite = Ingredient_objects db
   ∧ Tag_objects after_favorite = Tag_objects db)
  ∧ (Recipe_objects after_cart = Recipe_objects db
     ∧ Favorite_objects after_cart = Favorite_objects db
     ∧ IngredientRecipe_objects after_cart = IngredientRecipe_objects db
     ∧ Ingredient_objects after_cart = Ingredient_objects db
     ∧ Tag_objects after_cart = Tag_objects db).
Proof.
  cbv zeta. rewrite !respond_snd. split.
  - apply (action_frame Favorite). intros db'. unfold favorite.
    case_bool_decide; [apply add_recipe_frame|apply delete_recipe_frame].
  - apply (action_frame ShoppingCart). intros db'. unfold shopping_cart.
    case_bool_decide; [apply add_recipe_frame|apply delete_recipe_frame].
Qed.

(** ** The toggles on a recipe that exists *)

Lemma filter_all_true {A} (Q : A → bool) (l : list A) :
  (∀ x, x ∈ l → Q x = true) → List.filter Q l = l.
Proof.
  induction l as [|a l IH]; [done|]. intros Hall. simpl.
  rewrite (Hall a) by left. rewrite IH; [done|].
  intros x Hx. apply Hall. by right.
Qed.

Lemma add_recipe_found request uid recipe model cls message db :
  pk_ok recipe_id (Recipe_objects db) →
  recipe ∈ rows (Recipe_objects db) →
  user request = User uid →
  add_recipe request (recipe_id recipe) model cls message db =
  match rows_of uid (recipe_id recipe) (objects model db) with
  | _ :: _ => (inl (ValidationError ("Рецепт уже добавлен в " +:+ message)), db)
  | [] =>
      match run_validation cls (data request) with
      | inl errors => (inl (ValidationError errors), db)
      | inr _ =>
          let row := new_row model uid recipe db in
          let db' := insert_row model row db in
          (inr (mkResponse HTTP_201_CREATED
                  (Object (to_representation cls db' row))), db')
      end
  end.
Proof.
  intros Hpk Hin Hu.
  by rewrite add_recipe_eq, (recipe_filter_present recipe db Hpk Hin), Hu.
Qed.

Lemma delete_recipe_found request uid recipe model message db :
  pk_ok recipe_id (Recipe_objects db) →
  recipe ∈ rows (Recipe_objects db) →
  user request = User uid →
  delete_recipe request (recipe_id recipe) model message db =
  match rows_of uid (recipe_id recipe) (objects model db) with
  | [] => (inl (ValidationError ("Рецепт не добавлен в " +:+ message)), db)
  | [obj] =>
      (inr (mkResponse HTTP_204_NO_CONTENT NoBody), delete_row model obj db)
  | _ :: _ :: _ => (inl MultipleObjectsReturned, db)
  end.
Proof.
  intros Hpk Hin Hu.
  by rewrite delete_recipe_eq, (recipe_filter_present recipe db Hpk Hin), Hu.
Qed.

Lemma Recipe_objects_set_objects model t db :
  Recipe_objects (set_objects model t db) = Recipe_objects db.
Proof. by destruct model. Qed.

Lemma rows_of_insert_row u r model row db :
  rows_of u r (objects model (insert_row model row db))
  = rows_of u r (objects model db)
    ++ (if bool_decide (rel_recipe row = r) && bool_decide (rel_user row = u)
        then [row] else []).
Proof.
  unfold insert_row. rewrite objects_set_objects.
  rewrite (rows_of_app u r _ _ _ (next_id (objects model db)) 0).
  unfold rows_of at 2. simpl. by destruct (_ && _).
Qed.

Lemma rows_of_delete_row u r model obj db :
  rows_of u r (objects model (delete_row model obj db))
  = List.filter (λ x, negb (bool_decide (rel_id x = rel_id obj)))
                (rows_of u r (objects model db)).
Proof.
  unfold delete_row. rewrite objects_set_objects. unfold rows_of. simpl.
  apply filter_comm.
Qed.

(** When the serializer rejects the body of an add for an existing recipe
    that is not yet among the user's rows, the answer is 400 with the
    serializer's errors and no row is inserted. *)
Theorem add_recipe_rejected_body request uid recipe model cls message errors db :
  pk_ok recipe_id (Recipe_objects db) →
  recipe ∈ rows (Recipe_objects db) →
  user request = User uid →
  rows_of uid (recipe_id recipe) (objects model db) = [] →
  run_validation cls (data request) = inl errors →
  respond (add_recipe request (recipe_id recipe) model cls message) db
  = (mkResponse HTTP_400_BAD_REQUEST (Detail errors), db).
Proof.
  intros Hpk Hin Hu Hfree Hbad. unfold respond.
  by rewrite (add_recipe_found _ uid), Hfree, Hbad.
Qed.

Lemma sample_db_recipes_ok : pk_ok recipe_id (Recipe_objects sample_db).
Proof.
  split; simpl; [apply NoDup_singleton|apply Forall_singleton; simpl; lia].
Qed.

Lemma sample_recipe_in : sample_recipe ∈ rows (Recipe_objects sample_db).
Proof. left. Qed.

Lemma add_recipe_rejected_body_witness :
  respond (add_recipe (sample_request POST (User 3)) 1 Favorite strict_serializer
                      "избранное") sample_db
  = (mkResponse HTTP_400_BAD_REQUEST (Detail "ok: Обязательное поле."), sample_db).
Proof.
  exact (add_recipe_rejected_body (sample_request POST (User 3)) 3 sample_recipe
           Favorite strict_serializer "избранное" "ok: Обязательное поле."
           sample_db sample_db_recipes_ok sample_recipe_in eq_refl eq_refl eq_refl).
Defined.

(** In a store that has two rows for one user and recipe, a delete for the
    pair cannot pick its row: the single-object lookup raises
    [MultipleObjectsReturned], which [get_object_or_404] lets through, the
    answer is 500 and both rows stay; an add for the pair is refused as a
    duplicate. *)
Theorem duplicate_rows_block_delete request uid recipe model cls message db :
  pk_ok recipe_id (Recipe_objects db) →
  recipe ∈ rows (Recipe_objects db) →
  user request = User uid →
  (2 ≤ length (rows_of uid (recipe_id recipe) (objects model db)))%nat →
  respond (delete_recipe request (recipe_id recipe) model message) db
  = (mkResponse HTTP_500_INTERNAL_SERVER_ERROR NoBody, db)
  ∧ add_recipe request (recipe_id recipe) model cls message db
    = (inl (ValidationError ("Рецепт уже добавлен в " +:+ message)), db).
Proof.
  intros Hpk Hin Hu Htwo. unfold respond.
  rewrite (add_recipe_found _ uid), (delete_recipe_found _ uid) by done.
  destruct (rows_of uid (recipe_id recipe) (objects model db)) as [|a [|b l]];
    simpl in Htwo; [lia..|done].
Qed.

Lemma duplicate_rows_block_delete_witness :
  respond (delete_recipe (sample_request DELETE (User 3)) 1 Favorite "избранное")
          sample_db_dup
  = (mkResponse HTTP_500_INTERNAL_SERVER_ERROR NoBody, sample_db_dup).
Proof.
  refine (proj1 (duplicate_rows_block_delete (sample_request DELETE (User 3)) 3
                   sample_recipe Favorite sample_serializer "избранное"
                   sample_db_dup sample_db_recipes_ok sample_recipe_in eq_refl _)).
  simpl. lia.
Defined.

(** A toggle for one user and recipe changes the rows of no other pair:
    the rows of another user, and of the same user for another recipe, are
    the same afterwards, whether the toggle adds, deletes or fails. *)
Theorem toggle_leaves_other_pairs model cls message request uid pk db uid' recipe' :
  pk_ok rel_id (objects model db) →
  user request = User uid →
  uid' ≠ uid ∨ recipe' ≠ pk →
  rows_of uid' recipe' (objects model (snd (toggle model cls message request pk db)))
  = rows_of uid' recipe' (objects model db).
Proof.
  intros [Hnd _] Hu Hother. unfold toggle.
  case_bool_decide; rewrite ?add_recipe_eq, ?delete_recipe_eq.
  - destruct (qs_filter (by_id pk) (Recipe_objects db)) as [|recipe [|]] eqn:Hq;
      try done.
    assert (Hid : recipe_id recipe = pk).
    { assert (Hin : recipe ∈ qs_filter (by_id pk) (Recipe_objects db))
        by (rewrite Hq; left).
      apply filter_elem_of in Hin as [_ Hin]. by apply bool_decide_eq_true in Hin. }
    rewrite Hu.
    destruct (rows_of uid (recipe_id recipe) (objects model db)); [|done].
    destruct (run_validation cls (data request)); [done|]. simpl.
    rewrite rows_of_insert_row. simpl. rewrite Hid.
    destruct Hother as [Hne|Hne].
    + rewrite (bool_decide_eq_false_2 (uid = uid')) by congruence.
      by rewrite andb_false_r, app_nil_r.
    + rewrite (bool_decide_eq_false_2 (pk = recipe')) by congruence.
      by rewrite app_nil_r.
  - destruct (qs_filter (by_id pk) (Recipe_objects db)) as [|recipe [|]] eqn:Hq;
      try done.
    assert (Hid : recipe_id recipe = pk).
    { assert (Hin : recipe ∈ qs_filter (by_id pk) (Recipe_objects db))
        by (rewrite Hq; left).
      apply filter_elem_of in Hin as [_ Hin]. by apply bool_decide_eq_true in Hin. }
    rewrite Hu.
    destruct (rows_of uid (recipe_id recipe) (objects model db)) as [|obj [|]]
      eqn:Hrows; try done.
    simpl. rewrite rows_of_delete_row.
    assert (Hobj : obj ∈ rows_of uid (recipe_id recipe) (objects model db))
      by (rewrite Hrows; left).
    apply rows_of_spec in Hobj as (Hobj & Hr & Huid).
    apply filter_all_true. intros x (Hx & Hxr & Hxu)%rows_of_spec.
    apply negb_true_iff, bool_decide_eq_false. intros Hsame.
    assert (x = obj) as ->.
    { apply list_elem_of_lookup in Hx as [i Hi].
      apply list_elem_of_lookup in Hobj as [j Hj].
      assert (i = j) as ->; [|congruence].
      apply (NoDup_lookup _ i j (rel_id obj) Hnd);
        rewrite list_lookup_fmap; [by rewrite Hi; simpl; f_equal|by rewrite Hj]. }
    destruct Hother; congruence.
Qed.

Lemma toggle_leaves_other_pairs_witness :
  rows_of 4 1 (objects ShoppingCart
                 (snd (toggle ShoppingCart sample_serializer "список покупок"
                         (sample_request DELETE (User 3)) 1 sample_db_cart)))
  = [ {| rel_id := 2; rel_user := 4; rel_recipe := 1 |} ].
Proof.
  refine (toggle_leaves_other_pairs ShoppingCart sample_serializer "список покупок"
            (sample_request DELETE (User 3)) 3 1 sample_db_cart 4 1 _ eq_refl _).
  - split; simpl; repeat constructor; simpl; try lia.
    + intros Hin. repeat (apply elem_of_cons in Hin as [Hin|Hin]); try lia.
      by apply elem_of_nil in Hin.
    + intros Hin. repeat (apply elem_of_cons in Hin as [Hin|Hin]); try lia.
      by apply elem_of_nil in Hin.
    + by intros ?%elem_of_nil.
  - left. lia.
Defined.

(** ** Toggles one after another *)

Lemma insert_row_recipes model row db :
  Recipe_objects (insert_row model row db) = Recipe_objects db.
Proof. apply Recipe_objects_set_objects. Qed.

Lemma delete_row_recipes model obj db :
  Recipe_objects (delete_row model obj db) = Recipe_objects db.
Proof. apply Recipe_objects_set_objects. Qed.

Lemma set_objects_twice model t t' db :
  set_objects model t' (set_objects model t db) = set_objects model t' db.
Proof. by destruct model. Qed.

(** An add that succeeds followed by a delete for the same user and recipe
    gives back the table the add started from, row for row and in the same
    order; only the next primary key has moved on by one.  The rest of the
    store is the same throughout. *)
Theorem add_then_delete_restores request request' uid recipe model cls message
    message' validated db :
  pk_ok recipe_id (Recipe_objects db) →
  pk_ok rel_id (objects model db) →
  recipe ∈ rows (Recipe_objects db) →
  user request = User uid →
  user request' = User uid →
  rows_of uid (recipe_id recipe) (objects model db) = [] →
  run_validation cls (data request) = inr validated →
  let pk := recipe_id recipe in
  let db1 := snd (add_recipe request pk model cls message db) in
  ∃ db2,
    delete_recipe request' pk model message' db1
    = (inr (mkResponse HTTP_204_NO_CONTENT NoBody), db2)
    ∧ rows (objects model db2) = rows (objects model db)
    ∧ next_id (objects model db2) = next_id (objects model db) + 1
    ∧ same_except model db db2.
Proof.
  intros Hrecipes [Hnd Hlt] Hin Hu Hu' Hfree Hvalid. cbv zeta.
  rewrite (add_recipe_found _ uid), Hfree, Hvalid by done. simpl.
  set (row := new_row model uid recipe db).
  rewrite (delete_recipe_found _ uid)
    by (rewrite ?insert_row_recipes; done).
  rewrite rows_of_insert_row, Hfree. simpl.
  rewrite !bool_decide_eq_true_2 by done. simpl.
  eexists. split; [done|].
  unfold delete_row, insert_row.
  rewrite objects_set_objects, set_objects_twice, objects_set_objects. simpl.
  split; [|split; [done|apply same_except_set_objects]].
  rewrite List.filter_app. simpl. rewrite bool_decide_eq_true_2 by done. simpl.
  rewrite app_nil_r. apply (filter_key_keeps rel_id).
  intros (r & Heq & Hr)%list_elem_of_fmap.
  rewrite Forall_forall in Hlt. specialize (Hlt r Hr). lia.
Qed.

Lemma add_then_delete_restores_witness :
  ∃ db2,
    delete_recipe (sample_request DELETE (User 3)) 1 Favorite "избранное"
      (snd (add_recipe (sample_request POST (User 3)) 1 Favorite sample_serializer
              "избранное" sample_db))
    = (inr (mkResponse HTTP_204_NO_CONTENT NoBody), db2)
    ∧ rows (objects Favorite db2) = rows (objects Favorite sample_db)
    ∧ next_id (objects Favorite db2) = next_id (objects Favorite sample_db) + 1
    ∧ same_except Favorite sample_db db2.
Proof.
  refine (add_then_delete_restores (sample_request POST (User 3))
            (sample_request DELETE (User 3)) 3 sample_recipe Favorite
            sample_serializer "избранное" "избранное" ∅ sample_db
            sample_db_recipes_ok _ sample_recipe_in eq_refl eq_refl eq_refl eq_refl).
  split; simpl; [apply NoDup_nil_2|apply Forall_nil_2].
Defined.

(** The same toggle twice: after an add that succeeds, another add for the
    same user and recipe is refused as a duplicate and inserts nothing;
    after a delete that succeeds, another delete for the pair is refused as
    not added and deletes nothing. *)
Theorem toggle_twice_refused request request' uid recipe model cls cls' message
    message' db :
  pk_ok recipe_id (Recipe_objects db) →
  recipe ∈ rows (Recipe_objects db) →
  user request = User uid →
  user request' = User uid →
  let pk := recipe_id recipe in
  (∀ response db1,
     add_recipe request pk model cls message db = (inr response, db1) →
     add_recipe request' pk model cls' message' db1
     = (inl (ValidationError ("Рецепт уже добавлен в " +:+ message')), db1))
  ∧ (∀ response db1,
       delete_recipe request pk model message db = (inr response, db1) →
       delete_recipe request' pk model message' db1
       = (inl (ValidationError ("Рецепт не добавлен в " +:+ message')), db1)).
Proof.
  intros Hrecipes Hin Hu Hu'. cbv zeta. split; intros response db1.
  - rewrite (add_recipe_found _ uid) by done.
    destruct (rows_of uid (recipe_id recipe) (objects model db)) eqn:Hfree;
      [|done].
    destruct (run_validation cls (data request)); [done|]. simpl.
    intros [= _ <-].
    rewrite (add_recipe_found _ uid) by (rewrite ?insert_row_recipes; done).
    rewrite rows_of_insert_row, Hfree. simpl.
    by rewrite !bool_decide_eq_true_2.
  - rewrite (delete_recipe_found _ uid) by done.
    destruct (rows_of uid (recipe_id recipe) (objects model db)) as [|obj [|]]
      eqn:Hrows; try done.
    intros [= _ <-].
    rewrite (delete_recipe_found _ uid) by (rewrite ?delete_row_recipes; done).
    rewrite rows_of_delete_row, Hrows. simpl.
    by rewrite bool_decide_eq_true_2.
Qed.

Lemma toggle_twice_refused_witness :
  add_recipe (sample_request POST (User 3)) 1 Favorite strict_serializer
             "избранное" sample_db_fav
  = (inl (ValidationError "Рецепт уже добавлен в избранное"), sample_db_fav).
Proof.
  refine (proj1 (toggle_twice_refused (sample_request POST (User 3))
                   (sample_request POST (User 3)) 3 sample_recipe Favorite
                   sample_serializer strict_serializer "избранное" "избранное"
                   sample_db sample_db_recipes_ok sample_recipe_in eq_refl eq_refl)
                (mkResponse HTTP_201_CREATED (Object {[ "id" := VInt 1 ]}))
                sample_db_fav _).
  reflexivity.
Defined.

(** The favorite and the shopping-cart action keep the integrity of the
    store: distinct primary keys below the next key in the recipe and the
    two relation tables, and at most one relation row per user and recipe,
    hold after the request if they held before, however the request ends. *)
Theorem toggles_keep_integrity FS CS request pk db :
  wf_db db →
  wf_db (snd (respond (favorite_action FS request pk) db))
  ∧ wf_db (snd (respond (shopping_cart_action CS request pk) db)).
Proof.
  intros Hwf. rewrite !respond_snd. split.
  - apply (action_keeps wf_db); [|done].
    apply (toggle_keeps_wf Favorite FS "избранное" request pk).
  - apply (action_keeps wf_db); [|done].
    apply (toggle_keeps_wf ShoppingCart CS "список покупок" request pk).
Qed.

Lemma toggles_keep_integrity_witness :
  wf_db (snd (respond (favorite_action sample_serializer
                         (sample_request DELETE (User 3)) 1) sample_db_fav)).
Proof.
  exact (proj1 (toggles_keep_integrity sample_serializer sample_serializer
                  (sample_request DELETE (User 3)) 1 sample_db_fav
                  sample_db_fav_wf)).
Defined.

(** ** The download and the rest of the store *)


Lemma ingredients_of_ext db1 db2 :
  IngredientRecipe_objects db1 = IngredientRecipe_objects db2 →
  ingredients_of db1 = ingredients_of db2.
Proof. unfold ingredients_of. by intros ->. Qed.

Lemma download_action_eq download request db :
  download_shopping_cart_action download request db =
  match user request with
  | AnonymousUser => (inl NotAuthenticated, db)
  | User uid =>
      if bool_decide (method request = GET)
      then (inr (download (ingredients_of db <$> carts_of db uid)), db)
      else (inl MethodNotAllowed, db)
  end.
Proof.
  unfold download_shopping_cart_action.
  destruct (user request) as [|uid] eqn:Hu; [by apply action_anonymous|].
  case_bool_decide as Hm.
  - rewrite action_authenticated by (rewrite ?Hu, ?Hm; done || left).
    by rewrite download_shopping_cart_eq, Hu.
  - apply action_not_allowed; [by rewrite Hu|].
    by intros ?%list_elem_of_singleton.
Qed.



Lemma carts_of_insert_row db row uid :
  carts_of (insert_row ShoppingCart row db) uid
  = carts_of db uid ++ (if bool_decide (rel_user row = uid) then [row] else []).
Proof.
  unfold carts_of, qs_filter, insert_row. simpl. rewrite List.filter_app. simpl.
  by destruct (bool_decide _).
Qed.

(** After a recipe has been added to a user's cart, that user's download
    gets the collections it got before followed by one more, the ingredient
    rows of the recipe added; the download of every other user gets what it
    got before. *)
Theorem cart_add_extends_download download request request' uid uid' recipe cls
    message validated db :
  pk_ok recipe_id (Recipe_objects db) →
  recipe ∈ rows (Recipe_objects db) →
  user request = User uid →
  rows_of uid (recipe_id recipe) (ShoppingCart_objects db) = [] →
  run_validation cls (data request) = inr validated →
  user request' = User uid' →
  method request' = GET →
  let db1 := snd (add_recipe request (recipe_id recipe) ShoppingCart cls message db) in
  let before := ingredients_of db <$> carts_of db uid' in
  let added :=
    qs_filter (λ ir, bool_decide (ir_recipe ir = recipe_id recipe))
              (IngredientRecipe_objects db) in
  download_shopping_cart_action download request' db1
  = (inr (download (if bool_decide (uid = uid') then before ++ [added] else before)),
     db1).
Proof.
  intros Hrecipes Hin Hu Hfree Hvalid Hu' Hm. cbv zeta.
  rewrite (add_recipe_found _ uid) by done.
  change (objects ShoppingCart db) with (ShoppingCart_objects db).
  rewrite Hfree, Hvalid. cbn [snd].
  rewrite download_action_eq, Hu', Hm, bool_decide_eq_true_2 by done.
  rewrite carts_of_insert_row. cbn [new_row rel_user].
  rewrite (ingredients_of_ext (insert_row ShoppingCart _ db) db) by done.
  case_bool_decide; [|by rewrite app_nil_r].
  by rewrite fmap_app.
Qed.

Lemma cart_add_extends_download_witness :
  download_shopping_cart_action sample_download (sample_request GET (User 4))
    (snd (add_recipe (sample_request POST (User 4)) 2 ShoppingCart
            sample_serializer "список покупок" sample_db_cart))
  = (inr (mkResponse HTTP_200_OK
            (Objects [ {[ "rows" := VInt 2 ]}; {[ "rows" := VInt 1 ]} ])),
     snd (add_recipe (sample_request POST (User 4)) 2 ShoppingCart
            sample_serializer "список покупок" sample_db_cart)).
Proof.
  refine (cart_add_extends_download sample_download (sample_request POST (User 4))
            (sample_request GET (User 4)) 4 4
            {| recipe_id := 2; recipe_author := 7; recipe_fields := ∅ |}
            sample_serializer "список покупок" ∅ sample_db_cart
            _ _ eq_refl eq_refl eq_refl eq_refl eq_refl).
  - split; simpl.
    + apply NoDup_cons. split; [|apply NoDup_singleton].
      intros ?%list_elem_of_singleton. lia.
    + repeat constructor; simpl; lia.
  - simpl. right. left.
Defined.

Lemma NoDup_fmap_inj {A} (f : A → Z) (l : list A) x y :
  NoDup (f <$> l) → x ∈ l → y ∈ l → f x = f y → x = y.
Proof.
  intros Hnd Hx Hy Hxy.
  apply list_elem_of_lookup in Hx as [i Hi].
  apply list_elem_of_lookup in Hy as [j Hj].
  assert (i = j) as ->; [|congruence].
  apply (NoDup_lookup _ i j (f x) Hnd); rewrite list_lookup_fmap.
  - by rewrite Hi.
  - rewrite Hj. simpl. by f_equal.
Qed.

Lemma carts_of_delete_row db obj uid :
  carts_of (delete_row ShoppingCart obj db) uid
  = List.filter (λ r, negb (bool_decide (rel_id r = rel_id obj))) (carts_of db uid).
Proof. unfold carts_of, qs_filter, delete_row. simpl. apply filter_comm. Qed.

(** After a recipe has been removed from a user's cart, that user's download
    gets the collections of the remaining cart rows, in their order: the
    cart rows of the recipe removed are gone and no other. *)
Theorem cart_delete_shrinks_download download request request' uid recipe message db :
  wf_db db →
  recipe ∈ rows (Recipe_objects db) →
  user request = User uid →
  rows_of uid (recipe_id recipe) (ShoppingCart_objects db) ≠ [] →
  user request' = User uid →
  method request' = GET →
  let db1 := snd (delete_recipe request (recipe_id recipe) ShoppingCart message db) in
  let remaining :=
    List.filter (λ r, negb (bool_decide (rel_recipe r = recipe_id recipe)))
                (carts_of db uid) in
  fst (delete_recipe request (recipe_id recipe) ShoppingCart message db)
  = inr (mkResponse HTTP_204_NO_CONTENT NoBody)
  ∧ download_shopping_cart_action download request' db1
    = (inr (download (ingredients_of db <$> remaining)), db1).
Proof.
  intros (Hrecipes & _ & [Hnd _] & _ & Huniq) Hin Hu Hpresent Hu' Hm. cbv zeta.
  rewrite (delete_recipe_found _ uid) by done.
  change (objects ShoppingCart db) with (ShoppingCart_objects db).
  specialize (Huniq uid (recipe_id recipe)).
  destruct (rows_of uid (recipe_id recipe) (ShoppingCart_objects db))
    as [|obj [|]] eqn:Hrows; [done| |simpl in Huniq; lia].
  split; [done|]. cbn [snd].
  rewrite download_action_eq, Hu', Hm, bool_decide_eq_true_2 by done.
  rewrite carts_of_delete_row.
  rewrite (ingredients_of_ext (delete_row ShoppingCart obj db) db) by done.
  do 4 f_equal. apply List.filter_ext_in. intros x Hx.
  apply list_elem_of_In in Hx.
  unfold carts_of, qs_filter in Hx.
  apply filter_elem_of in Hx as [Hx Hxu]. apply bool_decide_eq_true in Hxu.
  assert (Hobj : obj ∈ rows_of uid (recipe_id recipe) (ShoppingCart_objects db))
    by (rewrite Hrows; left).
  apply rows_of_spec in Hobj as (Hobj & Hor & Hou).
  f_equal. apply bool_decide_ext. split.
  - intros Hid. by rewrite (NoDup_fmap_inj rel_id _ x obj Hnd Hx Hobj Hid).
  - intros Hr.
    assert (Hx' : x ∈ rows_of uid (recipe_id recipe) (ShoppingCart_objects db))
      by (by apply rows_of_spec).
    rewrite Hrows in Hx'. by apply list_elem_of_singleton in Hx' as ->.
Qed.

Lemma sample_db_cart_wf : wf_db sample_db_cart.
Proof.
  assert (Hnil : ∀ x : Z, x ∉ @nil Z) by (intros x ?%elem_of_nil; done).
  repeat split; simpl.
  - apply NoDup_cons. split; [|apply NoDup_singleton].
    intros ?%list_elem_of_singleton. lia.
  - repeat constructor; simpl; lia.
  - apply NoDup_nil_2.
  - apply Forall_nil_2.
  - repeat (apply NoDup_cons; split); try apply NoDup_nil_2; try apply Hnil;
      intros Hin; repeat (apply elem_of_cons in Hin as [Hin|Hin]); try lia;
      by apply elem_of_nil in Hin.
  - repeat constructor; simpl; lia.
  - intros uid recipe. simpl. lia.
  - intros uid recipe. unfold rows_of. simpl.
    destruct (decide (recipe = 1)) as [->|]; [|destruct (decide (recipe = 2)) as [->|]].
    + rewrite (bool_decide_eq_false_2 (2 = 1)), (bool_decide_eq_true_2 (1 = 1)) by lia.
      simpl. destruct (decide (uid = 3)) as [->|]; [|destruct (decide (uid = 4)) as [->|]].
      * rewrite (bool_decide_eq_false_2 (4 = 3)), (bool_decide_eq_true_2 (3 = 3)) by lia.
        simpl. lia.
      * rewrite (bool_decide_eq_true_2 (4 = 4)), (bool_decide_eq_false_2 (3 = 4)) by lia.
        simpl. lia.
      * rewrite (bool_decide_eq_false_2 (4 = uid)), (bool_decide_eq_false_2 (3 = uid))
          by lia. simpl. lia.
    + rewrite (bool_decide_eq_true_2 (2 = 2)), (bool_decide_eq_false_2 (1 = 2)) by lia.
      simpl. destruct (bool_decide (3 = uid)); simpl; lia.
    + rewrite (bool_decide_eq_false_2 (2 = recipe)), (bool_decide_eq_false_2 (1 = recipe))
        by lia. simpl. lia.
Qed.

Lemma cart_delete_shrinks_download_witness :
  download_shopping_cart_action sample_download (sample_request GET (User 3))
    (snd (delete_recipe (sample_request DELETE (User 3)) 2 ShoppingCart
            "список покупок" sample_db_cart))
  = (inr (mkResponse HTTP_200_OK (Objects [ {[ "rows" := VInt 2 ]} ])),
     snd (delete_recipe (sample_request DELETE (User 3)) 2 ShoppingCart
            "список покупок" sample_db_cart)).
Proof.
  refine (proj2 (cart_delete_shrinks_download sample_download
                   (sample_request DELETE (User 3)) (sample_request GET (User 3)) 3
                   {| recipe_id := 2; recipe_author := 7; recipe_fields := ∅ |}
                   "список покупок" sample_db_cart sample_db_cart_wf
                   _ eq_refl _ eq_refl eq_refl)).
  - simpl. right. left.
  - vm_compute. discriminate.
Defined.

(** ** Reading and writing recipes *)

Section recipe_requests.

Context (GetRecipeSerializer : ModelSerializerClass Recipe).
Context (PostRecipe_run_validation : bool → Data → string + Data).
Context (PostRecipe_update : Recipe → Data → M Recipe).
Context (PostRecipe_to_representation : DB → Recipe → Data).
Context (RecipeFilter : Request → DB → list Recipe → list Recipe).
Context (Pagination : Paginator).
Context (Recipe_delete : Recipe → M unit).

Let view : ViewSet Recipe :=
  RecipeViewSet GetRecipeSerializer PostRecipe_run_validation PostRecipe_update
                PostRecipe_to_representation RecipeFilter Pagination Recipe_delete.

Lemma is_safe_get_head request :
  method request ∈ [GET; HEAD] → is_safe (method request) = true.
Proof.
  intros Hm. repeat (apply elem_of_cons in Hm as [->|Hm]); try done.
  by apply elem_of_nil in Hm.
Qed.

Lemma recipe_dispatch_permitted route request db :
  is_safe (method request) || is_authenticated (user request) = true →
  dispatch view route request db =
  match route_action route (method request) with
  | Some a => handler view a route request db
  | None =>
      if bool_decide (method request = OPTIONS)
      then (inr (mkResponse HTTP_200_OK NoBody), db)
      else (inl MethodNotAllowed, db)
  end.
Proof.
  intros Hok. unfold view, dispatch. unfold mbind at 1, M_bind at 1.
  rewrite recipe_check_permissions, Hok.
  destruct (route_action route (method request)) as [a|]; [|by case_bool_decide].
  rewrite bool_decide_eq_true_2; [done|]. destruct a; vm_compute; repeat constructor.
Qed.

(** The list of recipes is open to every requester, the anonymous one
    included: a GET or HEAD on the collection answers with the page the
    pagination class cuts from the filtered queryset of all recipes, wrapped
    by the pagination class, or with the whole filtered queryset when the
    pagination class returns no page; the rows are represented by the read
    serializer, and the store is not changed. *)
Theorem recipe_list_paginated request db :
  method request ∈ [GET; HEAD] →
  let queryset := RecipeFilter request db (rows (Recipe_objects db)) in
  dispatch view list_route request db =
  match paginate_queryset Pagination Recipe request queryset with
  | Some page =>
      (inr (get_paginated_response Pagination request
              (ms_to_representation GetRecipeSerializer db <$> page)), db)
  | None =>
      (inr (mkResponse HTTP_200_OK
              (Objects (ms_to_representation GetRecipeSerializer db <$> queryset))),
       db)
  end.
Proof.
  intros Hm. cbv zeta. pose proof (is_safe_get_head request Hm) as Hsafe.
  rewrite recipe_dispatch_permitted by (by rewrite Hsafe).
  assert (route_action list_route (method request) = Some list_) as ->.
  { repeat (apply elem_of_cons in Hm as [->|Hm]); try done.
    by apply elem_of_nil in Hm. }
  unfold handler, list_view. unfold mbind at 1, M_bind at 1, query at 1.
  simpl. rewrite Hsafe. simpl.
  by destruct (paginate_queryset Pagination Recipe request _).
Qed.

(** A request with a safe method never changes the store through
    [RecipeViewSet], whatever the route, the requester and the outcome. *)
Theorem recipe_safe_requests_read_only route request db :
  is_safe (method request) = true →
  snd (dispatch view route request db) = db.
Proof.
  intros Hsafe. rewrite recipe_dispatch_permitted by (by rewrite Hsafe).
  destruct (route_action route (method request)) as [a|] eqn:Hroute;
    [|by case_bool_decide].
  apply route_action_method in Hroute.
  destruct a; try (rewrite Hroute in Hsafe; discriminate).
  - destruct route; apply read_only_list_view.
  - destruct route; [done|apply read_only_retrieve_view].
Qed.

(** Retrieve is open to every requester: a GET or HEAD on a recipe the
    filtered queryset holds once answers 200 with its representation by the
    read serializer, and one the queryset does not hold answers 404. *)
Theorem recipe_retrieve request pk db :
  method request ∈ [GET; HEAD] →
  let found :=
    List.filter (λ r, bool_decide (recipe_id r = pk))
                (RecipeFilter request db (rows (Recipe_objects db))) in
  (∀ obj, found = [obj] →
     dispatch view (detail_route pk) request db
     = (inr (mkResponse HTTP_200_OK
               (Object (ms_to_representation GetRecipeSerializer db obj))), db))
  ∧ (found = [] →
     dispatch view (detail_route pk) request db = (inl Http404, db)).
Proof.
  intros Hm. cbv zeta. pose proof (is_safe_get_head request Hm) as Hsafe.
  rewrite recipe_dispatch_permitted by (by rewrite Hsafe).
  assert (route_action (detail_route pk) (method request) = Some retrieve) as ->.
  { repeat (apply elem_of_cons in Hm as [->|Hm]); try done.
    by apply elem_of_nil in Hm. }
  unfold handler, retrieve_view. unfold mbind at 1, M_bind at 1. split.
  - intros obj Hfound. unfold view.
    rewrite (recipe_get_object _ _ _ _ _ _ _ _ _ obj) by done.
    rewrite recipe_check_object_permissions, Hsafe. simpl. by rewrite Hsafe.
  - intros Hnone. unfold get_object, get_object_or_404, catch, query.
    unfold mbind, M_bind. simpl. by rewrite Hnone.
Qed.

(** A DELETE on a found recipe by its author hands exactly that recipe to
    the deletion of the ORM and answers 204 when it returns; an exception of
    the deletion is the outcome of the request. *)
Theorem recipe_destroy_by_author request pk obj db :
  method request = DELETE →
  user request = User (recipe_author obj) →
  List.filter (λ r, bool_decide (recipe_id r = pk))
              (RecipeFilter request db (rows (Recipe_objects db))) = [obj] →
  dispatch view (detail_route pk) request db =
  match Recipe_delete obj db with
  | (inr _, db') => (inr (mkResponse HTTP_204_NO_CONTENT NoBody), db')
  | (inl e, db') => (inl e, db')
  end.
Proof.
  intros Hm Hu Hfound.
  rewrite recipe_dispatch_permitted by (by rewrite Hu, orb_true_r).
  rewrite Hm. simpl. unfold destroy_view. unfold mbind at 1, M_bind at 1.
  unfold view. rewrite (recipe_get_object _ _ _ _ _ _ _ _ _ obj) by done.
  rewrite recipe_check_object_permissions, Hu, bool_decide_eq_true_2, orb_true_r
    by done.
  simpl. unfold DestroyModelMixin_perform_destroy. unfold mbind, M_bind.
  by destruct (Recipe_delete obj db) as [[?|[]] ?].
Qed.

(** A PUT or PATCH on a found recipe by its author validates the body, in
    full for PUT and partially for PATCH, and hands the recipe and the
    validated data as they are, no author added, to the update of the write
    serializer; the answer is 200 with the representation of what the
    update returns.  A body that fails validation is answered 400 and
    nothing is updated. *)
Theorem recipe_update_by_author request pk obj db :
  method request ∈ [PUT; PATCH] →
  user request = User (recipe_author obj) →
  List.filter (λ r, bool_decide (recipe_id r = pk))
              (RecipeFilter request db (rows (Recipe_objects db))) = [obj] →
  dispatch view (detail_route pk) request db =
  match PostRecipe_run_validation (bool_decide (method request = PATCH))
                                  (data request) with
  | inl errors => (inl (ValidationError errors), db)
  | inr validated_data =>
      match PostRecipe_update obj validated_data db with
      | (inr obj', db') =>
          (inr (mkResponse HTTP_200_OK
                  (Object (PostRecipe_to_representation db' obj'))), db')
      | (inl e, db') => (inl e, db')
      end
  end.
Proof.
  intros Hm Hu Hfound.
  rewrite recipe_dispatch_permitted by (by rewrite Hu, orb_true_r).
  assert (Hobject : get_object view request pk db = (inr obj, db)).
  { unfold view. rewrite (recipe_get_object _ _ _ _ _ _ _ _ _ obj) by done.
    by rewrite recipe_check_object_permissions, Hu, bool_decide_eq_true_2,
      orb_true_r. }
  apply elem_of_cons in Hm as [Hm|Hm%list_elem_of_singleton];
    rewrite Hm; simpl; unfold update_view;
    unfold mbind at 1, M_bind at 1; rewrite Hobject; simpl; rewrite Hm; simpl;
    unfold mbind at 1, M_bind at 1, ms_is_valid; simpl;
    (destruct (PostRecipe_run_validation _ (data request)) as [errors|vd];
     [done|]);
    unfold mret at 1, M_ret at 1;
    unfold mbind at 1, M_bind at 1, UpdateModelMixin_perform_update, ms_save;
    simpl; unfold mbind at 1, M_bind at 1;
    rewrite (left_id_L ∅ (∪));
    by destruct (PostRecipe_update obj vd db) as [[?|?] ?].
Qed.

End recipe_requests.

Lemma recipe_list_paginated_witness :
  dispatch sample_view list_route (sample_request GET AnonymousUser) sample_db
  = (inr (mkResponse HTTP_200_OK
            (Objects [ {[ "id" := VInt 1; "author" := VInt 7 ]} ])), sample_db).
Proof.
  refine (recipe_list_paginated sample_get_serializer
            sample_recipe_serializer_validation (λ r _, mret r)
            sample_recipe_representation (λ _ _ qs, qs) sample_paginator
            sample_recipe_delete (sample_request GET AnonymousUser) sample_db _).
  simpl. left.
Defined.

Lemma recipe_safe_requests_read_only_witness :
  snd (dispatch sample_view (detail_route 1) (sample_request HEAD AnonymousUser)
         sample_db_fav)
  = sample_db_fav.
Proof.
  exact (recipe_safe_requests_read_only sample_get_serializer
           sample_recipe_serializer_validation (λ r _, mret r)
           sample_recipe_representation (λ _ _ qs, qs) sample_paginator
           sample_recipe_delete (detail_route 1) (sample_request HEAD AnonymousUser)
           sample_db_fav eq_refl).
Defined.

Lemma recipe_retrieve_witness :
  dispatch sample_view (detail_route 5) (sample_request GET AnonymousUser) sample_db
  = (inl Http404, sample_db).
Proof.
  refine (proj2 (recipe_retrieve sample_get_serializer
                   sample_recipe_serializer_validation (λ r _, mret r)
                   sample_recipe_representation (λ _ _ qs, qs) sample_paginator
                   sample_recipe_delete (sample_request GET AnonymousUser) 5
                   sample_db _) eq_refl).
  simpl. left.
Defined.

Lemma recipe_destroy_by_author_witness :
  dispatch sample_view (detail_route 1) (sample_request DELETE (User 7)) sample_db
  = (inr (mkResponse HTTP_204_NO_CONTENT NoBody),
     set_recipes (mkTable [] 2) sample_db).
Proof.
  exact (recipe_destroy_by_author sample_get_serializer
           sample_recipe_serializer_validation (λ r _, mret r)
           sample_recipe_representation (λ _ _ qs, qs) sample_paginator
           sample_recipe_delete (sample_request DELETE (User 7)) 1 sample_recipe
           sample_db eq_refl eq_refl eq_refl).
Defined.

Lemma recipe_update_by_author_witness :
  dispatch sample_view (detail_route 1) (sample_request PATCH (User 7)) sample_db
  = (inr (mkResponse HTTP_200_OK
            (Object {[ "id" := VInt 1; "author" := VInt 7 ]})), sample_db).
Proof.
  refine (recipe_update_by_author sample_get_serializer
            sample_recipe_serializer_validation (λ r _, mret r)
            sample_recipe_representation (λ _ _ qs, qs) sample_paginator
            sample_recipe_delete (sample_request PATCH (User 7)) 1 sample_recipe
            sample_db _ eq_refl eq_refl).
  simpl. right. left.
Defined.

Section recipe_create_errors.

Context (GetRecipeSerializer : ModelSerializerClass Recipe).
Context (PostRecipe_run_validation : bool → Data → string + Data).
Context (PostRecipe_update : Recipe → Data → M Recipe).
Context (PostRecipe_to_representation : DB → Recipe → Data).
Context (RecipeFilter : Request → DB → list Recipe → list Recipe).
Context (Pagination : Paginator).
Context (Recipe_delete : Recipe → M unit).

Let view : ViewSet Recipe :=
  RecipeViewSet GetRecipeSerializer PostRecipe_run_validation PostRecipe_update
                PostRecipe_to_representation RecipeFilter Pagination Recipe_delete.

(** A create request of an authenticated user whose body the write
    serializer rejects is answered with the serializer's errors as a
    validation error; [perform_create] is not reached and no recipe is
    stored. *)
Theorem recipe_create_rejected_body request errors db :
  method request = POST →
  is_authenticated (user request) = true →
  PostRecipe_run_validation false (data request) = inl errors →
  dispatch view list_route request db = (inl (ValidationError errors), db).
Proof.
  intros Hm Hauth Hbad. unfold view.
  rewrite recipe_dispatch_permitted by (by rewrite Hauth, orb_true_r).
  rewrite Hm. simpl. unfold create_view. simpl. rewrite Hm. simpl.
  unfold mbind at 1, M_bind at 1, ms_is_valid. simpl. by rewrite Hbad.
Qed.

End recipe_create_errors.

Lemma recipe_create_rejected_body_witness :
  dispatch (RecipeViewSet sample_get_serializer (λ _ _, inl "name: Обязательное поле.")
              (λ r _, mret r) sample_recipe_representation (λ _ _ qs, qs)
              sample_paginator sample_recipe_delete)
           list_route (sample_request POST (User 3)) sample_db
  = (inl (ValidationError "name: Обязательное поле."), sample_db).
Proof.
  exact (recipe_create_rejected_body sample_get_serializer
           (λ _ _, inl "name: Обязательное поле.") (λ r _, mret r)
           sample_recipe_representation (λ _ _ qs, qs) sample_paginator
           sample_recipe_delete (sample_request POST (User 3))
           "name: Обязательное поле." sample_db eq_refl eq_refl eq_refl).
Defined.
